(** * Invoice QC: the record model and the validation engine

    A shallow embedding of [invoice_qc/models.py] and
    [invoice_qc/validator.py], followed by the properties of the
    validation engine and of its batch aggregation.

    Conventions of the embedding:
    - a Python [float] is an IEEE 754 binary64 value, modelled by
      [spec_float] with precision 53 and maximal exponent 1024; every
      arithmetic operation rounds to nearest-even as the hardware does;
    - a Python [int] is a [Z];
    - a Python [str] is a [string] whose characters are code points below
      256;
    - a [dict] with string keys is a [gmap string _], a [set] is a [gset];
    - the engine attribute [self.seen_invoices] and the system clock read
      by [date.today()] and [datetime.utcnow()] are threaded explicitly
      through a state monad;
    - an f-string is kept as the list of its literal pieces and of the
      values interpolated into it, unrendered. *)

From Stdlib Require Import ZArith String Ascii List Bool Lia.
From Stdlib Require Import Floats.SpecFloat.
From stdpp Require Import gmap strings list fin_maps.

Local Open Scope string_scope.
Local Open Scope Z_scope.

(* ===================================================================== *)
(** ** Python floats *)
(* ===================================================================== *)

Module PyFloat.

Definition prec : Z := 53.
Definition emax : Z := 1024.

Definition float : Type := spec_float.

(** [float(n)] for an integer [n], correctly rounded. *)
Definition of_Z (n : Z) : float := binary_normalize prec emax n 0 false.

Definition add (x y : float) : float := SFadd prec emax x y.
Definition sub (x y : float) : float := SFsub prec emax x y.
Definition mul (x y : float) : float := SFmul prec emax x y.
Definition div (x y : float) : float := SFdiv prec emax x y.
Definition abs (x : float) : float := SFabs x.

(** [x < y], [x > y] and [x != y]; every ordered comparison with a NaN
    is false, and a NaN differs from everything. *)
Definition lt (x y : float) : bool := SFltb x y.
Definition gt (x y : float) : bool := SFltb y x.
Definition le (x y : float) : bool := SFleb x y.
Definition eqb (x y : float) : bool := SFeqb x y.
Definition neb (x y : float) : bool := negb (SFeqb x y).

Definition is_nan (x : float) : bool :=
  match x with S754_nan => true | _ => false end.

(** A float as the interpreter can hold it: mantissa and exponent in
    the binary64 range. *)
Definition well_formed (x : float) : bool := valid_binary prec emax x.

Definition nan : float := S754_nan.

(** The literals [0.01] and [0.005] of the validator: the binary64
    values nearest to 1/100 and 1/200. *)
Definition lit_0_01 : float := S754_finite false 5764607523034235 (-59).
Definition lit_0_005 : float := S754_finite false 5764607523034235 (-60).

(** The decimal literal [n / 10^k] for small examples, correctly
    rounded: [decimal 10101 100] is the literal [101.01]. *)
Definition decimal (num den : Z) : float := div (of_Z num) (of_Z den).

(** The builtin [sum] over floats: the integer start value [0], then
    one addition per element, left to right.  The properties of the
    tolerance checks below hold of the value of the sum, however it is
    accumulated; only the worked examples evaluate it. *)
Definition sum (xs : list float) : float := fold_left add xs (of_Z 0).

End PyFloat.

Abbreviation float := PyFloat.float.

(* ===================================================================== *)
(** ** Python strings *)
(* ===================================================================== *)

Module PyStr.

(** [c.isspace()] on the code points below 256. *)
Definition is_space (c : ascii) : bool :=
  let n := nat_of_ascii c in
  ((9 <=? n) && (n <=? 13) || (28 <=? n) && (n <=? 32)
   || (n =? 133) || (n =? 160))%nat.

Fixpoint lstrip (s : string) : string :=
  match s with
  | EmptyString => EmptyString
  | String c rest => if is_space c then lstrip rest else s
  end.

Fixpoint rev_onto (s acc : string) : string :=
  match s with
  | EmptyString => acc
  | String c rest => rev_onto rest (String c acc)
  end.

Definition reverse (s : string) : string := rev_onto s EmptyString.

(** [s.strip()] *)
Definition strip (s : string) : string :=
  reverse (lstrip (reverse (lstrip s))).

(** Truth value of a string: non-empty. *)
Definition truthy (s : string) : bool :=
  match s with EmptyString => false | _ => true end.

End PyStr.

(* ===================================================================== *)
(** ** Calendar dates ([datetime.date]) *)
(* ===================================================================== *)

Module PyDate.

Record date := mk_date { year : Z; month : Z; day : Z }.

Definition is_leap (y : Z) : bool :=
  (y mod 4 =? 0) && (negb (y mod 100 =? 0) || (y mod 400 =? 0)).

Definition days_before_year (y : Z) : Z :=
  let y' := y - 1 in y' * 365 + y' / 4 - y' / 100 + y' / 400.

Definition DAYS_BEFORE_MONTH : list Z :=
  [ -1; 0; 31; 59; 90; 120; 151; 181; 212; 243; 273; 304; 334 ].

Definition days_before_month (y m : Z) : Z :=
  nth (Z.to_nat m) DAYS_BEFORE_MONTH 0
  + (if (2 <? m) && is_leap y then 1 else 0).

(** [d.toordinal()] *)
Definition toordinal (d : date) : Z :=
  days_before_year (year d) + days_before_month (year d) (month d) + day d.

(** [(a - b).days] *)
Definition days_between (a b : date) : Z := toordinal a - toordinal b.

(** [a < b]: the comparison of the (year, month, day) triples. *)
Definition lt (a b : date) : bool :=
  (year a <? year b)
  || (year a =? year b)
     && ((month a <? month b)
         || (month a =? month b) && (day a <? day b)).

Definition digit (n : Z) : ascii := ascii_of_nat (48 + Z.to_nat (n mod 10)).

Definition pad2 (n : Z) : string :=
  String (digit (n / 10)) (String (digit n) EmptyString).

Definition pad4 (n : Z) : string :=
  String (digit (n / 1000)) (String (digit (n / 100)) (pad2 n)).

(** [str(d)]: the ISO form YYYY-MM-DD. *)
Definition str (d : date) : string :=
  pad4 (year d) +:+ "-" +:+ pad2 (month d) +:+ "-" +:+ pad2 (day d).

(** [datetime.datetime], naive. *)
Record datetime := mk_datetime {
  dt_date : date;
  hour : Z; minute : Z; second : Z; microsecond : Z
}.

End PyDate.

Abbreviation date := PyDate.date.
Abbreviation datetime := PyDate.datetime.

(* ===================================================================== *)
(** ** The record model ([models.py]) *)
(* ===================================================================== *)

Module Models.

(** [class Currency(str, Enum)] *)
Inductive Currency := EUR | USD | GBP | INR.

(** The members in definition order, as iterating the enum yields them. *)
Definition Currency_members : list Currency := [EUR; USD; GBP; INR].

(** [c.value]; a member is itself a [str] equal to its value. *)
Definition Currency_value (c : Currency) : string :=
  match c with
  | EUR => "EUR" | USD => "USD" | GBP => "GBP" | INR => "INR"
  end.

Record LineItem := mk_LineItem {
  description : string;
  quantity : float;
  unit_price : float;
  line_total : float;
  tax_rate : option float
}.

Record Invoice := mk_Invoice {
  invoice_number : string;
  external_reference : option string;
  seller_name : string;
  seller_address : option string;
  seller_tax_id : option string;
  buyer_name : string;
  buyer_address : option string;
  buyer_tax_id : option string;
  invoice_date : date;
  due_date : option date;
  currency : Currency;
  net_total : float;
  tax_amount : float;
  gross_total : float;
  line_items : list LineItem;
  payment_terms : option string;
  notes : option string;
  source_file : option string;
  extracted_at : option datetime
}.

(** [Invoice.non_negative_amounts]: the field validator of
    [net_total], [tax_amount] and [gross_total]; [inl] is the raised
    [ValueError]. *)
Definition non_negative_amounts (v : float) : string + float :=
  if PyFloat.lt v (PyFloat.of_Z 0)
  then inl "Amounts cannot be negative"
  else inr v.

(** A construction error: the fields whose validator raised, each with
    the message of its [ValueError], in field order. *)
Definition ConstructionError : Type := list (string * string).

Definition run_field_validator (name : string) (v : float)
  : list (string * string) :=
  match non_negative_amounts v with
  | inl msg => [(name, msg)]
  | inr _ => []
  end.

(** [Invoice(...)] on field values that already have their declared
    types, defaults filled in: the framework runs the decorated
    validator on each of the three fields it is registered for, collects
    the failures, and raises when there is one.  Nothing of the
    validation engine is consulted. *)
Definition Invoice_new (fields : Invoice) : ConstructionError + Invoice :=
  match (run_field_validator "net_total" (net_total fields)
         ++ run_field_validator "tax_amount" (tax_amount fields)
         ++ run_field_validator "gross_total" (gross_total fields))%list with
  | [] => inr fields
  | errs => inl errs
  end.

(** One interpolated piece of an f-string. *)
Inductive fmt_piece :=
| Lit (s : string)                (* literal text *)
| FStr (s : string)               (* {s} *)
| FInt (n : Z)                    (* {n} *)
| FFloat (x : float)              (* {x} *)
| FFloat2f (x : float)            (* {x:.2f} *)
| FDate (d : date)                (* {d} *)
| FOptDate (d : option date)      (* {d}, possibly None *)
| FCurrency (c : Currency)        (* {c} *)
| FStrList (l : list string).     (* {l} *)

Definition message_t : Type := list fmt_piece.

Record ValidationError := mk_ValidationError {
  rule : string;
  message : message_t;
  severity : string
}.

Record ValidationResult := mk_ValidationResult {
  invoice_id : string;
  is_valid : bool;
  errors : list ValidationError;
  warnings : list ValidationError
}.

Record ValidationSummary := mk_ValidationSummary {
  total_invoices : Z;
  valid_invoices : Z;
  invalid_invoices : Z;
  error_counts : gmap string Z;
  validation_timestamp : datetime
}.

End Models.

Import Models.

(* ===================================================================== *)
(** ** The validation engine ([validator.py]) *)
(* ===================================================================== *)

Module InvoiceValidator.

(** *** State: the engine's seen keys and the system clock *)

(** The identity key of the duplicate check. *)
Definition Key : Type := (string * string * string)%type.

(** What the system clock answers at one read: the local calendar date
    ([date.today()]) and the UTC time ([datetime.utcnow()]). *)
Record Reading := mk_Reading { today : date; utcnow : datetime }.

(** [seen_invoices] is the attribute of the engine instance; [clock]
    gives the answer of the n-th clock read of the process and [reads]
    counts the reads made so far. *)
Record State := mk_State {
  seen_invoices : gset Key;
  clock : nat -> Reading;
  reads : nat
}.

Definition M (A : Type) : Type := State -> A * State.

Definition ret {A : Type} (a : A) : M A := fun s => (a, s).

Definition bind {A B : Type} (m : M A) (k : A -> M B) : M B :=
  fun s => let (a, s') := m s in k a s'.

Notation "x <- m ;; k" := (bind m (fun x => k))
  (at level 100, m at next level, right associativity).

Definition date_today : M date :=
  fun s => (today (clock s (reads s)),
            mk_State (seen_invoices s) (clock s) (S (reads s))).

Definition datetime_utcnow : M datetime :=
  fun s => (utcnow (clock s (reads s)),
            mk_State (seen_invoices s) (clock s) (S (reads s))).

(** [key in self.seen_invoices] *)
Definition seen_contains (key : Key) : M bool :=
  fun s => (bool_decide (key ∈ seen_invoices s), s).

(** [self.seen_invoices.add(key)] *)
Definition seen_add (key : Key) : M unit :=
  fun s => (tt, mk_State ({[ key ]} ∪ seen_invoices s) (clock s) (reads s)).

(** [self.seen_invoices.clear()] *)
Definition seen_clear : M unit :=
  fun s => (tt, mk_State ∅ (clock s) (reads s)).

(** [InvoiceValidator()]: a fresh engine in a process whose clock is
    [c] and has been read [n] times. *)
Definition fresh (c : nat -> Reading) (n : nat) : State := mk_State ∅ c n.

(** *** Dynamic views of the typed fields *)

Inductive pyval :=
| VNone
| VStr (s : string)
| VDate (d : date)
| VDatetime (t : datetime)
| VFloat (x : float)
| VItems (l : list LineItem).

Definition of_opt {A : Type} (inj : A -> pyval) (o : option A) : pyval :=
  match o with Some a => inj a | None => VNone end.

(** [getattr(invoice, name, None)] *)
Definition getattr (invoice : Invoice) (name : string) : pyval :=
  if String.eqb name "invoice_number" then VStr (invoice_number invoice)
  else if String.eqb name "external_reference" then of_opt VStr (external_reference invoice)
  else if String.eqb name "seller_name" then VStr (seller_name invoice)
  else if String.eqb name "seller_address" then of_opt VStr (seller_address invoice)
  else if String.eqb name "seller_tax_id" then of_opt VStr (seller_tax_id invoice)
  else if String.eqb name "buyer_name" then VStr (buyer_name invoice)
  else if String.eqb name "buyer_address" then of_opt VStr (buyer_address invoice)
  else if String.eqb name "buyer_tax_id" then of_opt VStr (buyer_tax_id invoice)
  else if String.eqb name "invoice_date" then VDate (invoice_date invoice)
  else if String.eqb name "due_date" then of_opt VDate (due_date invoice)
  else if String.eqb name "currency" then VStr (Currency_value (currency invoice))
  else if String.eqb name "net_total" then VFloat (net_total invoice)
  else if String.eqb name "tax_amount" then VFloat (tax_amount invoice)
  else if String.eqb name "gross_total" then VFloat (gross_total invoice)
  else if String.eqb name "line_items" then VItems (line_items invoice)
  else if String.eqb name "payment_terms" then of_opt VStr (payment_terms invoice)
  else if String.eqb name "notes" then of_opt VStr (notes invoice)
  else if String.eqb name "source_file" then of_opt VStr (source_file invoice)
  else if String.eqb name "extracted_at" then of_opt VDatetime (extracted_at invoice)
  else VNone.

(** Truth value of an object. *)
Definition truthy (v : pyval) : bool :=
  match v with
  | VNone => false
  | VStr s => PyStr.truthy s
  | VDate _ => true
  | VDatetime _ => true
  | VFloat x => PyFloat.neb x (PyFloat.of_Z 0)
  | VItems l => match l with [] => false | _ => true end
  end.

(** [isinstance(v, date)]; a [datetime] is a [date] too. *)
Definition isinstance_date (v : pyval) : bool :=
  match v with VDate _ | VDatetime _ => true | _ => false end.

Definition error (r : string) (msg : message_t) : ValidationError :=
  mk_ValidationError r msg "error".

Definition warning (r : string) (msg : message_t) : ValidationError :=
  mk_ValidationError r msg "warning".

(** *** Rules *)

Definition REQUIRED_FIELDS : list string :=
  [ "invoice_number"; "invoice_date"; "seller_name"; "buyer_name";
    "currency"; "net_total"; "tax_amount"; "gross_total" ].

(** The body of the loop of [_check_required_fields]. *)
Definition required_field_errors (invoice : Invoice) (field_name : string)
  : list ValidationError :=
  match getattr invoice field_name with
  | VNone =>
      [ error "required_field_missing"
          [Lit "Missing required field: "; FStr field_name] ]
  | VStr value =>
      if negb (PyStr.truthy (PyStr.strip value))
      then [ error "required_field_empty"
               [Lit "Required field is empty: "; FStr field_name] ]
      else []
  | _ => []
  end.

Definition _check_required_fields (invoice : Invoice) : list ValidationError :=
  flat_map (required_field_errors invoice) REQUIRED_FIELDS.

Definition _check_dates (invoice : Invoice) : M (list ValidationError) :=
  let inv_date := VDate (invoice_date invoice) in
  let due := of_opt VDate (due_date invoice) in
  errors1 <-
    (if truthy inv_date then
       if negb (isinstance_date inv_date) then
         ret [ error "invalid_date_format"
                 [Lit "invoice_date has invalid type/value: ";
                  FDate (invoice_date invoice)] ]
       else
         today <- date_today ;;
         if 3650 <? Z.abs (PyDate.days_between today (invoice_date invoice))
         then ret [ error "date_out_of_range"
                      [Lit "invoice_date looks unrealistic: ";
                       FDate (invoice_date invoice)] ]
         else ret []
     else ret []) ;;
  let errors2 :=
    if truthy due && negb (isinstance_date due)
    then [ error "invalid_date_format"
             [Lit "due_date has invalid type/value: ";
              FOptDate (due_date invoice)] ]
    else [] in
  ret (errors1 ++ errors2)%list.

Definition _check_currency (invoice : Invoice) : list ValidationError :=
  let allowed := map Currency_value Currency_members in
  if negb (existsb (String.eqb (Currency_value (currency invoice))) allowed)
  then [ error "invalid_currency"
           [Lit "Currency '"; FCurrency (currency invoice);
            Lit "' is not in "; FStrList allowed] ]
  else [].

Definition _check_line_items_sum (invoice : Invoice) : list ValidationError :=
  if negb (truthy (VItems (line_items invoice))) then []
  else
    let computed_sum := PyFloat.sum (map line_total (line_items invoice)) in
    let tolerance := PyFloat.mul (net_total invoice) PyFloat.lit_0_01 in
    let diff := PyFloat.abs (PyFloat.sub computed_sum (net_total invoice)) in
    if PyFloat.gt diff tolerance
    then [ error "line_items_sum_mismatch"
             [Lit "Line items total "; FFloat2f computed_sum;
              Lit " does not match net_total "; FFloat2f (net_total invoice);
              Lit ". Diff = "; FFloat2f diff] ]
    else [].

Definition _check_gross_calculation (invoice : Invoice) : list ValidationError :=
  let expected_gross := PyFloat.add (net_total invoice) (tax_amount invoice) in
  let tolerance := PyFloat.mul (gross_total invoice) PyFloat.lit_0_005 in
  let diff := PyFloat.abs (PyFloat.sub expected_gross (gross_total invoice)) in
  if PyFloat.gt diff tolerance
  then [ error "gross_calculation_mismatch"
           [Lit "net_total ("; FFloat2f (net_total invoice);
            Lit ") + tax_amount ("; FFloat2f (tax_amount invoice);
            Lit ") = "; FFloat2f expected_gross;
            Lit ", but gross_total is "; FFloat2f (gross_total invoice)] ]
  else [].

Definition _check_due_date (invoice : Invoice) : list ValidationError :=
  match due_date invoice with
  | Some due =>
      if truthy (VDate due) && truthy (VDate (invoice_date invoice)) then
        if PyDate.lt due (invoice_date invoice)
        then [ error "due_date_before_invoice_date"
                 [Lit "due_date ("; FDate due;
                  Lit ") is before invoice_date (";
                  FDate (invoice_date invoice); Lit ")"] ]
        else []
      else []
  | None => []
  end.

Definition invoice_key (invoice : Invoice) : Key :=
  (invoice_number invoice, seller_name invoice,
   PyDate.str (invoice_date invoice)).

Definition _check_duplicates (invoice : Invoice) : M (list ValidationError) :=
  let key := invoice_key invoice in
  seen <- seen_contains key ;;
  if seen
  then ret [ error "duplicate_invoice"
               [Lit "Duplicate invoice detected: "; FStr (invoice_number invoice);
                Lit " from "; FStr (seller_name invoice);
                Lit " on "; FDate (invoice_date invoice)] ]
  else _ <- seen_add key ;; ret [].

(** The loop of [_check_non_negative] over [enumerate(line_items)],
    from index [idx] on. *)
Fixpoint line_item_errors (idx : Z) (items : list LineItem)
  : list ValidationError :=
  match items with
  | [] => []
  | item :: rest =>
      ((if PyFloat.lt (quantity item) (PyFloat.of_Z 0)
        then [ error "negative_quantity"
                 [Lit "Line item "; FInt (idx + 1);
                  Lit " has negative quantity: "; FFloat (quantity item)] ]
        else [])
       ++ (if PyFloat.lt (unit_price item) (PyFloat.of_Z 0)
           then [ error "negative_unit_price"
                    [Lit "Line item "; FInt (idx + 1);
                     Lit " has negative unit_price: "; FFloat (unit_price item)] ]
           else [])
       ++ line_item_errors (idx + 1) rest)%list
  end.

Definition amount_errors (field : string * float) : list ValidationError :=
  let (name, value) := field in
  if PyFloat.lt value (PyFloat.of_Z 0)
  then [ error "negative_amount"
           [FStr name; Lit " cannot be negative (value: "; FFloat value; Lit ")"] ]
  else [].

Definition _check_non_negative (invoice : Invoice) : list ValidationError :=
  let amount_fields :=
    [ ("net_total", net_total invoice);
      ("tax_amount", tax_amount invoice);
      ("gross_total", gross_total invoice) ] in
  (flat_map amount_errors amount_fields
   ++ line_item_errors 0 (line_items invoice))%list.

Definition _check_warnings (invoice : Invoice) : M (list ValidationError) :=
  let inv_date := VDate (invoice_date invoice) in
  let w1 :=
    if negb (truthy (VItems (line_items invoice)))
    then [ warning "no_line_items" [Lit "Invoice has no line items"] ]
    else [] in
  let w2 :=
    if negb (truthy (of_opt VStr (seller_tax_id invoice)))
    then [ warning "missing_seller_tax_id" [Lit "Seller tax ID is missing"] ]
    else [] in
  let w3 :=
    if negb (truthy (of_opt VDate (due_date invoice)))
    then [ warning "missing_due_date" [Lit "Due date is missing"] ]
    else [] in
  w4 <-
    (if truthy inv_date && isinstance_date inv_date then
       today <- date_today ;;
       let age_days := PyDate.days_between today (invoice_date invoice) in
       if 365 <? age_days
       then ret [ warning "old_invoice"
                    [Lit "Invoice is "; FInt age_days;
                     Lit " days old (over 1 year)"] ]
       else ret []
     else ret []) ;;
  ret (w1 ++ w2 ++ w3 ++ w4)%list.

(** *** One invoice *)

Definition validate_invoice (invoice : Invoice) : M ValidationResult :=
  (* Completeness *)
  e1 <- ret (_check_required_fields invoice) ;;
  e2 <- _check_dates invoice ;;
  e3 <- ret (_check_currency invoice) ;;
  (* Business *)
  e4 <- ret (_check_line_items_sum invoice) ;;
  e5 <- ret (_check_gross_calculation invoice) ;;
  e6 <- ret (_check_due_date invoice) ;;
  (* Anomaly *)
  e7 <- _check_duplicates invoice ;;
  e8 <- ret (_check_non_negative invoice) ;;
  let errors := (e1 ++ e2 ++ e3 ++ e4 ++ e5 ++ e6 ++ e7 ++ e8)%list in
  (* Non-blocking warnings *)
  warnings <- _check_warnings invoice ;;
  let invoice_id :=
    if PyStr.truthy (invoice_number invoice)
    then invoice_number invoice else "UNKNOWN" in
  ret (mk_ValidationResult invoice_id (Nat.eqb (length errors) 0)
         errors warnings).

(** *** A batch *)

(** [error_counts[err.rule] += 1] on a [defaultdict(int)]. *)
Definition count_error (error_counts : gmap string Z) (err : ValidationError)
  : gmap string Z :=
  <[ rule err := default 0 (error_counts !! rule err) + 1 ]> error_counts.

(** The loop of [validate_batch]. *)
Fixpoint batch_loop (invoices : list Invoice)
    (results : list ValidationResult) (error_counts : gmap string Z)
  : M (list ValidationResult * gmap string Z) :=
  match invoices with
  | [] => ret (results, error_counts)
  | inv :: rest =>
      result <- validate_invoice inv ;;
      batch_loop rest (results ++ [result])%list
        (fold_left count_error (errors result) error_counts)
  end.

Fixpoint sum_Z (xs : list Z) : Z :=
  match xs with [] => 0 | x :: rest => x + sum_Z rest end.

Record BatchOutput := mk_BatchOutput {
  results : list ValidationResult;
  summary : ValidationSummary
}.

Definition validate_batch (invoices : list Invoice) : M BatchOutput :=
  _ <- seen_clear ;;
  out <- batch_loop invoices [] ∅ ;;
  let (results, error_counts) := out in
  let valid_count := sum_Z (map (fun _ => 1) (List.filter is_valid results)) in
  now <- datetime_utcnow ;;
  ret (mk_BatchOutput results
         (mk_ValidationSummary
            (Z.of_nat (length invoices))
            valid_count
            (Z.of_nat (length invoices) - valid_count)
            error_counts
            now)).

End InvoiceValidator.

Import InvoiceValidator.

(* ===================================================================== *)
(** ** Observations on results *)
(* ===================================================================== *)

Module Observe.

(** How many findings of a list carry the rule identifier [r]. *)
Definition count_rule (r : string) (errs : list ValidationError) : nat :=
  length (List.filter (fun e => String.eqb (rule e) r) errs).

Definition has_rule (r : string) (errs : list ValidationError) : bool :=
  existsb (fun e => String.eqb (rule e) r) errs.

(** Result of a computation, and the state it leaves. *)
Definition eval {A : Type} (m : M A) (s : State) : A := fst (m s).
Definition exec {A : Type} (m : M A) (s : State) : State := snd (m s).

(** [validate_invoice] called on each record in turn, the state being
    handed from one call to the next. *)
Fixpoint run_each (invoices : list Invoice) (s : State)
  : list ValidationResult * State :=
  match invoices with
  | [] => ([], s)
  | inv :: rest =>
      let (r, s1) := validate_invoice inv s in
      let (rs, s2) := run_each rest s1 in
      (r :: rs, s2)
  end.

(** The state in which the record after [invoices] is validated. *)
Definition state_after (invoices : list Invoice) (s : State) : State :=
  snd (run_each invoices s).

(** All errors of all results of a batch, in order. *)
Definition all_errors (rs : list ValidationResult) : list ValidationError :=
  concat (map errors rs).

(** The clock of [s] shows the calendar date [d] at every read from the
    current one on. *)
Definition date_is (d : date) (s : State) : Prop :=
  forall n : nat, (reads s <= n)%nat -> today (clock s n) = d.

(** The summary without its timestamp. *)
Definition summary_counts (sm : ValidationSummary)
  : Z * Z * Z * gmap string Z :=
  (total_invoices sm, valid_invoices sm, invalid_invoices sm, error_counts sm).

(** The errors of [_check_dates] when the clock shows [today]. *)
Definition dates_errors (today : date) (invoice : Invoice)
  : list ValidationError :=
  if 3650 <? Z.abs (PyDate.days_between today (invoice_date invoice))
  then [ error "date_out_of_range"
           [Lit "invoice_date looks unrealistic: ";
            FDate (invoice_date invoice)] ]
  else [].

(** The findings of [_check_warnings] when the clock shows [today]. *)
Definition warnings_on (today : date) (invoice : Invoice)
  : list ValidationError :=
  ((if negb (truthy (VItems (line_items invoice)))
    then [ warning "no_line_items" [Lit "Invoice has no line items"] ]
    else [])
   ++ (if negb (truthy (of_opt VStr (seller_tax_id invoice)))
       then [ warning "missing_seller_tax_id" [Lit "Seller tax ID is missing"] ]
       else [])
   ++ (if negb (truthy (of_opt VDate (due_date invoice)))
       then [ warning "missing_due_date" [Lit "Due date is missing"] ]
       else [])
   ++ (if 365 <? PyDate.days_between today (invoice_date invoice)
       then [ warning "old_invoice"
                [Lit "Invoice is ";
                 FInt (PyDate.days_between today (invoice_date invoice));
                 Lit " days old (over 1 year)"] ]
       else []))%list.

(** The errors of [_check_duplicates] against the seen keys [seen]. *)
Definition duplicate_errors (seen : gset Key) (invoice : Invoice)
  : list ValidationError :=
  if bool_decide (invoice_key invoice ∈ seen)
  then [ error "duplicate_invoice"
           [Lit "Duplicate invoice detected: "; FStr (invoice_number invoice);
            Lit " from "; FStr (seller_name invoice);
            Lit " on "; FDate (invoice_date invoice)] ]
  else [].

(** The error list of [validate_invoice] for given clock answer and
    seen keys. *)
Definition errors_on (today : date) (seen : gset Key) (invoice : Invoice)
  : list ValidationError :=
  (_check_required_fields invoice ++ dates_errors today invoice
   ++ _check_currency invoice ++ _check_line_items_sum invoice
   ++ _check_gross_calculation invoice ++ _check_due_date invoice
   ++ duplicate_errors seen invoice ++ _check_non_negative invoice)%list.

(** Every finding of [errs] carries one of the identifiers of
    [universe]. *)
Definition rules_within (universe : list string)
    (errs : list ValidationError) : Prop :=
  Forall (fun e => existsb (String.eqb (rule e)) universe = true) errs.

(** The test of [_check_line_items_sum]: [diff > tolerance]. *)
Definition sum_exceeds_tolerance (invoice : Invoice) : bool :=
  PyFloat.gt
    (PyFloat.abs (PyFloat.sub (PyFloat.sum (map line_total (line_items invoice)))
                    (net_total invoice)))
    (PyFloat.mul (net_total invoice) PyFloat.lit_0_01).

(** The test of [_check_gross_calculation]: [diff > tolerance]. *)
Definition gross_exceeds_tolerance (invoice : Invoice) : bool :=
  PyFloat.gt
    (PyFloat.abs (PyFloat.sub (PyFloat.add (net_total invoice) (tax_amount invoice))
                    (gross_total invoice)))
    (PyFloat.mul (gross_total invoice) PyFloat.lit_0_005).

End Observe.

Import Observe.

(* ===================================================================== *)
(** ** Sample records *)
(* ===================================================================== *)

Module Samples.

Definition june_1st : date := PyDate.mk_date 2024 6 1.
Definition june_2nd : date := PyDate.mk_date 2024 6 2.

(** A clock that stays on 2024-06-01 and advances by one microsecond
    at each read. *)
Definition ticking_clock (n : nat) : Reading :=
  mk_Reading june_1st (PyDate.mk_datetime june_1st 12 0 0 (Z.of_nat n)).

(** A clock that passes midnight after its fourth read. *)
Definition midnight_clock (n : nat) : Reading :=
  if (n <? 4)%nat
  then mk_Reading june_1st (PyDate.mk_datetime june_1st 23 59 59 (Z.of_nat n))
  else mk_Reading june_2nd (PyDate.mk_datetime june_2nd 0 0 0 (Z.of_nat n)).

Definition item (qty price total : float) : LineItem :=
  mk_LineItem "Consulting services" qty price total None.

(** An invoice of seller "Tech Solutions GmbH" dated 2024-01-15 with
    the given number, totals and line items. *)
Definition invoice (number : string) (net tax gross : float)
    (items : list LineItem) : Invoice :=
  mk_Invoice number None "Tech Solutions GmbH" None (Some "DE123456789")
    "Example Corp AG" None None (PyDate.mk_date 2024 1 15)
    (Some (PyDate.mk_date 2024 2 14)) EUR net tax gross items
    None None None None.

(** A clean invoice: 100 + 19 = 119, one line of 100. *)
Definition clean (number : string) : Invoice :=
  invoice number (PyFloat.of_Z 100) (PyFloat.of_Z 19) (PyFloat.of_Z 119)
    [ item (PyFloat.of_Z 1) (PyFloat.of_Z 100) (PyFloat.of_Z 100) ].

(** Zero net total, one line whose total is NaN. *)
Definition nan_line : Invoice :=
  invoice "INV-NAN-1" (PyFloat.of_Z 0) (PyFloat.of_Z 0) (PyFloat.of_Z 0)
    [ item (PyFloat.of_Z 1) (PyFloat.of_Z 1) PyFloat.nan ].

(** Zero gross total, NaN net total, no lines. *)
Definition nan_net : Invoice :=
  invoice "INV-NAN-2" PyFloat.nan (PyFloat.of_Z 0) (PyFloat.of_Z 0) [].

(** Non-negative totals, one line with negative quantity and price. *)
Definition negative_line : Invoice :=
  invoice "INV-NEG" (PyFloat.of_Z 100) (PyFloat.of_Z 19) (PyFloat.of_Z 119)
    [ item (PyFloat.of_Z (-2)) (PyFloat.of_Z (-50)) (PyFloat.of_Z 100) ].

(** An invoice dated more than a year before the sample clocks. *)
Definition old : Invoice :=
  mk_Invoice "INV-OLD" None "Tech Solutions GmbH" None (Some "DE123456789")
    "Example Corp AG" None None (PyDate.mk_date 2023 6 1)
    (Some (PyDate.mk_date 2023 7 1)) EUR
    (PyFloat.of_Z 100) (PyFloat.of_Z 19) (PyFloat.of_Z 119) [] None None None None.

(** Three records with one identity key, and one with another key
    between them. *)
Definition batch_with_duplicates : list Invoice :=
  [ clean "INV-1"; clean "INV-2"; clean "INV-1"; clean "INV-1" ].

(** A fresh engine at noon, and the same engine after it validated
    the sample batch once. *)
Definition noon : State := fresh ticking_clock 0.
Definition noon_after : State :=
  exec (validate_batch batch_with_duplicates) noon.

(** A fresh engine shortly before midnight, and the same engine after
    it validated the old invoice once. *)
Definition night : State := fresh midnight_clock 0.
Definition night_after : State := exec (validate_batch [old]) night.

End Samples.

(* ===================================================================== *)
(** ** Measures on records, results and summaries *)
(* ===================================================================== *)

Module Measure.

(** Every character of [s] is whitespace. *)
Definition all_space (s : string) : bool :=
  forallb PyStr.is_space (list_ascii_of_string s).

(** The sum of the counts of an [error_counts] dictionary. *)
Definition total_count (m : gmap string Z) : Z :=
  map_fold (fun _ v acc => v + acc) 0 m.

(** The identity keys of a list of records. *)
Definition keys_of (invoices : list Invoice) : gset Key :=
  list_to_set (map invoice_key invoices).

(** The rule identifiers of the findings, in order. *)
Definition rules_of (errs : list ValidationError) : list string :=
  map rule errs.

(** The findings left when those of rule [r] are taken out. *)
Definition without_rule (r : string) (errs : list ValidationError)
  : list ValidationError :=
  List.filter (fun e => negb (String.eqb (rule e) r)) errs.

(** The error rules a typed record can trigger. *)
Definition ERROR_RULES : list string :=
  [ "required_field_empty"; "date_out_of_range"; "line_items_sum_mismatch";
    "gross_calculation_mismatch"; "due_date_before_invoice_date";
    "duplicate_invoice"; "negative_amount"; "negative_quantity";
    "negative_unit_price" ].

Definition WARNING_RULES : list string :=
  [ "no_line_items"; "missing_seller_tax_id"; "missing_due_date"; "old_invoice" ].

(** A finding with the given severity and a rule among [universe]. *)
Definition finding_of (sev : string) (universe : list string)
    (e : ValidationError) : Prop :=
  severity e = sev /\ existsb (String.eqb (rule e)) universe = true.

End Measure.

Import Measure.

(* ===================================================================== *)
(** ** Valid calendar dates *)
(* ===================================================================== *)

Module Calendar.

Definition MINYEAR : Z := 1.
Definition MAXYEAR : Z := 9999.

Definition DAYS_IN_MONTH : list Z :=
  [ -1; 31; 28; 31; 30; 31; 30; 31; 31; 30; 31; 30; 31 ].

(** Number of days of a month of a year. *)
Definition days_in_month (y m : Z) : Z :=
  if (m =? 2) && PyDate.is_leap y then 29
  else nth (Z.to_nat m) DAYS_IN_MONTH 0.

(** The check made by the constructor [date(y, m, d)]. *)
Definition valid_ymd (y m d : Z) : bool :=
  (MINYEAR <=? y) && (y <=? MAXYEAR)
  && (1 <=? m) && (m <=? 12)
  && (1 <=? d) && (d <=? days_in_month y m).

Definition valid (d : date) : bool :=
  valid_ymd (PyDate.year d) (PyDate.month d) (PyDate.day d).

End Calendar.

(* ===================================================================== *)
(** ** The extractor ([extractor.py]) *)
(* ===================================================================== *)

Module PDFInvoiceExtractor.

(** *** String methods *)

(** [s.replace(old, new)] for a one-character [old]. *)
Fixpoint replace (old : ascii) (new : string) (s : string) : string :=
  match s with
  | EmptyString => EmptyString
  | String c rest =>
      if Ascii.eqb c old then new +:+ replace old new rest
      else String c (replace old new rest)
  end.

(** [c in s] for a one-character [c]. *)
Fixpoint contains (c : ascii) (s : string) : bool :=
  match s with
  | EmptyString => false
  | String c' rest => Ascii.eqb c' c || contains c rest
  end.

(** [s.find(c)] for a one-character [c], counting from [i]: the index of
    the first occurrence, or -1. *)
Fixpoint find_from (i : Z) (c : ascii) (s : string) : Z :=
  match s with
  | EmptyString => -1
  | String c' rest => if Ascii.eqb c' c then i else find_from (i + 1) c rest
  end.

Definition find (c : ascii) (s : string) : Z := find_from 0 c s.

(** *** [datetime.strptime] on the directives %d, %m and %Y *)

Definition is_digit (c : ascii) : bool :=
  let n := nat_of_ascii c in ((48 <=? n) && (n <=? 57))%nat.

(** The character class [lo-hi]. *)
Definition between (lo hi : ascii) (c : ascii) : bool :=
  ((nat_of_ascii lo <=? nat_of_ascii c) && (nat_of_ascii c <=? nat_of_ascii hi))%nat.

Definition digit_value (c : ascii) : Z := Z.of_nat (nat_of_ascii c) - 48.

(** [int(text)] for a text of digits after optional spaces. *)
Fixpoint int_from (acc : Z) (text : string) : Z :=
  match text with
  | EmptyString => acc
  | String c rest =>
      if is_digit c then int_from (acc * 10 + digit_value c) rest
      else int_from acc rest
  end.

Definition int_of (text : string) : Z := int_from 0 text.

(** One alternative of a group: a sequence of character classes.  The
    result is the text matched and the rest of the input. *)
Fixpoint classes (cs : list (ascii -> bool)) (s : string)
  : option (string * string) :=
  match cs with
  | [] => Some (EmptyString, s)
  | p :: cs' =>
      match s with
      | String c rest =>
          if p c then
            match classes cs' rest with
            | Some (m, r) => Some (String c m, r)
            | None => None
            end
          else None
      | EmptyString => None
      end
  end.

(** The ways a group of alternatives matches at the start of [s], in the
    order in which a backtracking matcher tries them. *)
Definition alternatives (alts : list (list (ascii -> bool))) (s : string)
  : list (string * string) :=
  flat_map (fun a => match classes a s with Some x => [x] | None => [] end) alts.

Inductive directive :=
| Dir_d               (* %d *)
| Dir_m               (* %m *)
| Dir_Y               (* %Y *)
| Literal (c : ascii).

(** The regular expressions of the directives:
    %d is [3[0-1]|[1-2]\d|0[1-9]|[1-9]| [1-9]],
    %m is [1[0-2]|0[1-9]|[1-9]], %Y is [\d\d\d\d]. *)
Definition regex_of (d : directive) : list (list (ascii -> bool)) :=
  match d with
  | Dir_d =>
      [ [Ascii.eqb "3"; between "0" "1"]; [between "1" "2"; is_digit];
        [Ascii.eqb "0"; between "1" "9"]; [between "1" "9"];
        [Ascii.eqb " "; between "1" "9"] ]
  | Dir_m =>
      [ [Ascii.eqb "1"; between "0" "2"]; [Ascii.eqb "0"; between "1" "9"];
        [between "1" "9"] ]
  | Dir_Y => [ [is_digit; is_digit; is_digit; is_digit] ]
  | Literal c => [ [Ascii.eqb c] ]
  end.

(** A format string as its directives and literal characters. *)
Fixpoint directives_of (fmt : string) : list directive :=
  match fmt with
  | EmptyString => []
  | String "%" (String "d" rest) => Dir_d :: directives_of rest
  | String "%" (String "m" rest) => Dir_m :: directives_of rest
  | String "%" (String "Y" rest) => Dir_Y :: directives_of rest
  | String c rest => Literal c :: directives_of rest
  end.

(** The values of the groups found so far. *)
Record groups := mk_groups {
  group_Y : option Z; group_m : option Z; group_d : option Z
}.

Definition bind_group (d : directive) (text : string) (g : groups) : groups :=
  match d with
  | Dir_Y => mk_groups (Some (int_of text)) (group_m g) (group_d g)
  | Dir_m => mk_groups (group_Y g) (Some (int_of text)) (group_d g)
  | Dir_d => mk_groups (group_Y g) (group_m g) (Some (int_of text))
  | Literal _ => g
  end.

(** All matches of the format at the start of [s], first the one a
    backtracking matcher finds first; each with the unmatched rest. *)
Fixpoint match_format (fmt : list directive) (g : groups) (s : string)
  : list (groups * string) :=
  match fmt with
  | [] => [(g, s)]
  | d :: fmt' =>
      flat_map (fun tr : string * string =>
                  match_format fmt' (bind_group d (fst tr) g) (snd tr))
        (alternatives (regex_of d) s)
  end.

(** [datetime.strptime(s, fmt).date()]; [None] stands for the
    [ValueError] raised when the text does not match, when text remains
    after the match, or when the values are no calendar date.  A missing
    group defaults to 1900, 1 and 1. *)
Definition strptime (s fmt : string) : option date :=
  match match_format (directives_of fmt) (mk_groups None None None) s with
  | (g, EmptyString) :: _ =>
      let y := default 1900 (group_Y g) in
      let m := default 1 (group_m g) in
      let d := default 1 (group_d g) in
      if Calendar.valid_ymd y m d then Some (PyDate.mk_date y m d) else None
  | _ => None
  end.

(** *** The extractor's helpers *)

Definition DATE_FORMATS : list string :=
  [ "%d.%m.%Y"; "%Y-%m-%d"; "%d-%m-%Y"; "%m/%d/%Y" ].

(** The loop of [_parse_date] over the formats still to try. *)
Fixpoint try_formats (s : string) (fmts : list string) : option date :=
  match fmts with
  | [] => None
  | fmt :: rest =>
      match strptime s fmt with
      | Some d => Some d
      | None => try_formats s rest
      end
  end.

Definition _parse_date (s : string) : option date := try_formats s DATE_FORMATS.

(** The text that [_parse_number] hands to [float]. *)
Definition number_text (s : string) : string :=
  let cleaned := replace " " "" s in
  let cleaned :=
    if contains "," cleaned && contains "." cleaned
       && (find "." cleaned <? find "," cleaned)
    then replace "," "." (replace "." "" cleaned)
    else cleaned in
  replace "," "" cleaned.

(** What [_clean_value] returns: a date or [None], a float, or the text
    unchanged. *)
Inductive field_value :=
| DateValue (d : option date)
| NumberValue (x : float)
| TextValue (s : string).

(** The keys and patterns of [FIELD_PATTERNS], in order. *)
Definition FIELD_PATTERNS : list (string * string) :=
  [ ("invoice_number", "(Invoice Number|Invoice No\.?|Rechnung\s*Nr\.?)[:\s]*([\w\-\/]+)");
    ("invoice_date", "(Invoice Date|Rechnungsdatum)[:\s]*([\d\.\-/]+)");
    ("due_date", "(Due Date|Faelligkeitsdatum)[:\s]*([\d\.\-/]+)");
    ("net_total", "(Net Total|Netto)[:\s]*([\d\.,]+)");
    ("tax_amount", "(Tax Amount|MwSt)[:\s]*([\d\.,]+)");
    ("gross_total", "(Total|Gesamtbetrag|Brutto)[:\s]*([\d\.,]+)");
    ("seller_name", "(From|Seller|Lieferant)[:\s]*(.*)");
    ("buyer_name", "(To|Buyer|Kunde)[:\s]*(.*)") ].

Section WithBuiltins.

(** The builtin [float(text)]; [None] when it raises. *)
Variable float_of_str : string -> option float.

(** [re.search(pattern, text, flags=re.IGNORECASE)] followed by
    [group(2)]; [None] when the pattern is not found. *)
Variable search_group2 : string -> string -> option string.

Definition _parse_number (s : string) : float :=
  match float_of_str (number_text s) with
  | Some x => x
  | None => PyFloat.of_Z 0
  end.

Definition _clean_value (key value : string) : field_value :=
  if existsb (String.eqb key) ["invoice_date"; "due_date"]
  then DateValue (_parse_date value)
  else if existsb (String.eqb key) ["net_total"; "tax_amount"; "gross_total"]
  then NumberValue (_parse_number value)
  else TextValue value.

(** The body of the loop of [_extract_basic_fields]. *)
Definition extract_field (text : string) (data : gmap string field_value)
    (entry : string * string) : gmap string field_value :=
  let (key, pattern) := entry in
  match search_group2 pattern text with
  | Some group2 => <[ key := _clean_value key (PyStr.strip group2) ]> data
  | None => data
  end.

Definition _extract_basic_fields (text : string) : gmap string field_value :=
  fold_left (extract_field text) FIELD_PATTERNS ∅.

(** A keyword argument of [Invoice(...)] checked against the declared
    type of its field: the value, or the type error of the field. *)
Definition as_text (name : string) (v : field_value) : ConstructionError + string :=
  match v with
  | TextValue s => inr s
  | _ => inl [(name, "Input should be a valid string")]
  end.

Definition as_date (name : string) (v : option field_value)
  : ConstructionError + date :=
  match v with
  | Some (DateValue (Some d)) => inr d
  | _ => inl [(name, "Input should be a valid date")]
  end.

Definition as_optional_date (name : string) (v : option field_value)
  : ConstructionError + option date :=
  match v with
  | None | Some (DateValue None) => inr None
  | Some (DateValue (Some d)) => inr (Some d)
  | Some _ => inl [(name, "Input should be a valid date")]
  end.

Definition as_number (name : string) (v : field_value) : ConstructionError + float :=
  match v with
  | NumberValue x => inr x
  | _ => inl [(name, "Input should be a valid number")]
  end.

Definition error_of {A : Type} (r : ConstructionError + A) : ConstructionError :=
  match r with inl e => e | inr _ => [] end.

(** The errors of a total: its type error, or else what its field
    validator raises. *)
Definition total_errors (name : string) (r : ConstructionError + float)
  : ConstructionError :=
  match r with inl e => e | inr x => run_field_validator name x end.

(** [extract], from the text and the line items read from the PDF at
    [pdf_path]; [now] is the clock reading that fills [extracted_at].
    Every keyword argument is checked against the type of its field and
    the totals against their validator; the errors of all fields are
    reported together, in field order. *)
Definition extract_from (text : string) (line_items : list LineItem)
    (pdf_path : string) (now : datetime) : ConstructionError + Invoice :=
  let parsed := _extract_basic_fields text in
  let number := as_text "invoice_number"
                  (default (TextValue "UNKNOWN") (parsed !! "invoice_number")) in
  let seller := as_text "seller_name"
                  (default (TextValue "") (parsed !! "seller_name")) in
  let buyer := as_text "buyer_name"
                 (default (TextValue "") (parsed !! "buyer_name")) in
  let inv_date := as_date "invoice_date" (parsed !! "invoice_date") in
  let due := as_optional_date "due_date" (parsed !! "due_date") in
  let net := as_number "net_total"
               (default (NumberValue (PyFloat.of_Z 0)) (parsed !! "net_total")) in
  let tax := as_number "tax_amount"
               (default (NumberValue (PyFloat.of_Z 0)) (parsed !! "tax_amount")) in
  let gross := as_number "gross_total"
                 (default (NumberValue (PyFloat.of_Z 0)) (parsed !! "gross_total")) in
  match number, seller, buyer, inv_date, due, net, tax, gross with
  | inr number, inr seller, inr buyer, inr inv_date, inr due,
    inr net, inr tax, inr gross =>
      Invoice_new
        (mk_Invoice number None (PyStr.strip seller) None None
           (PyStr.strip buyer) None None inv_date due EUR net tax gross
           line_items None None (Some pdf_path) (Some now))
  | _, _, _, _, _, _, _, _ =>
      inl (error_of number ++ error_of seller ++ error_of buyer
           ++ error_of inv_date ++ error_of due
           ++ total_errors "net_total" net ++ total_errors "tax_amount" tax
           ++ total_errors "gross_total" gross)%list
  end.

End WithBuiltins.

End PDFInvoiceExtractor.

(* ===================================================================== *)
(** ** Shapes of extracted text *)
(* ===================================================================== *)

Module Shapes.

Import PDFInvoiceExtractor.

(** No space, comma or dot occurs in [s]. *)
Definition plain (s : string) : bool :=
  negb (contains " " s) && negb (contains "," s) && negb (contains "." s).

(** A date written day first with the separator [sep], and month first. *)
Definition day_first (sep : string) (d : date) : string :=
  PyDate.pad2 (PyDate.day d) +:+ sep +:+ PyDate.pad2 (PyDate.month d)
  +:+ sep +:+ PyDate.pad4 (PyDate.year d).

Definition month_first (sep : string) (d : date) : string :=
  PyDate.pad2 (PyDate.month d) +:+ sep +:+ PyDate.pad2 (PyDate.day d)
  +:+ sep +:+ PyDate.pad4 (PyDate.year d).

(** The pattern that [FIELD_PATTERNS] holds for a key. *)
Definition pattern_of (key : string) : string :=
  match List.find (fun e : string * string => String.eqb (fst e) key)
          FIELD_PATTERNS with
  | Some e => snd e
  | None => EmptyString
  end.

(** What a total is read as: the number parsed from the text found for
    its key, or 0.0 when nothing is found. *)
Definition total_read (float_of_str : string -> option float)
    (search_group2 : string -> string -> option string)
    (text key : string) : float :=
  match search_group2 (pattern_of key) text with
  | Some g => _parse_number float_of_str (PyStr.strip g)
  | None => PyFloat.of_Z 0
  end.

(** What a date field is read as. *)
Definition date_read (search_group2 : string -> string -> option string)
    (text key : string) : option date :=
  match search_group2 (pattern_of key) text with
  | Some g => _parse_date (PyStr.strip g)
  | None => None
  end.

(** What a text field is read as, with the fallback of [extract]. *)
Definition text_read (search_group2 : string -> string -> option string)
    (text key fallback : string) : string :=
  match search_group2 (pattern_of key) text with
  | Some g => PyStr.strip g
  | None => fallback
  end.

(** A stand-in for [re.search] on a text in which only the invoice date
    and the seller are found. *)
Definition found_date_and_seller (pattern text : string) : option string :=
  if String.eqb pattern (pattern_of "invoice_date") then Some " 15.01.2024 "
  else if String.eqb pattern (pattern_of "seller_name") then Some "Tech Solutions GmbH  "
  else None.

(** The record [extract] builds from such a text, with no line items. *)
Definition extracted_sample : Invoice :=
  mk_Invoice "UNKNOWN" None "Tech Solutions GmbH" None None "" None None
    (PyDate.mk_date 2024 1 15) None EUR
    (PyFloat.of_Z 0) (PyFloat.of_Z 0) (PyFloat.of_Z 0) [] None None
    (Some "scan.pdf")
    (Some (PyDate.mk_datetime (PyDate.mk_date 2024 6 1) 12 0 0 0)).

(** A stand-in for [float] that knows two texts. *)
Definition known_numbers (text : string) : option float :=
  if String.eqb text "1234.56" then Some (PyFloat.decimal 123456 100)
  else if String.eqb text "1250" then Some (PyFloat.of_Z 1250)
  else None.

End Shapes.

(* ===================================================================== *)
(** ** Line items from tables ([extractor.py]) *)
(* ===================================================================== *)

Module LineItemTables.

Import PDFInvoiceExtractor.

(** What the PDF library returns for a page: its tables, each a list of
    rows, each row a list of cells; an empty cell is [None]. *)
Definition cell : Type := option string.
Definition row : Type := list cell.
Definition table : Type := list row.

Section WithFloat.

(** The builtin [float(text)]; [None] when it raises. *)
Variable float_of_str : string -> option float.

(** [float(c.replace(",", "."))] for a cell [c]; [None] when the cell is
    empty or [float] raises. *)
Definition cell_number (c : cell) : option float :=
  match c with
  | Some text => float_of_str (replace "," "." text)
  | None => None
  end.

(** The body of the loop over the rows: the line item of a row, or
    [None] when anything in it raises (a missing or empty cell, a text
    that is no number) and the row is skipped. *)
Definition row_item (r : row) : option LineItem :=
  match r with
  | Some desc :: c1 :: c2 :: c3 :: _ =>
      match cell_number c1, cell_number c2, cell_number c3 with
      | Some qty, Some price, Some total =>
          Some (mk_LineItem (PyStr.strip desc) qty price total None)
      | _, _, _ => None
      end
  | _ => None
  end.

(** The loop over [table[1:]]. *)
Fixpoint rows_items (rows : list row) : list LineItem :=
  match rows with
  | [] => []
  | r :: rest =>
      match row_item r with
      | Some item => item :: rows_items rest
      | None => rows_items rest
      end
  end.

(** The items of one table; [None] when [table[0]] raises because the
    table has no row, which ends the whole scan. *)
Definition table_items (t : table) : option (list LineItem) :=
  match t with
  | [] => None
  | header :: rows =>
      if (length header <? 4)%nat then Some [] else Some (rows_items rows)
  end.

(** The loop over the tables of a page, then over the pages: the items
    found, and whether the scan is still running. *)
Fixpoint tables_items (ts : list table) : list LineItem * bool :=
  match ts with
  | [] => ([], true)
  | t :: rest =>
      match table_items t with
      | None => ([], false)
      | Some xs =>
          let (ys, running) := tables_items rest in ((xs ++ ys)%list, running)
      end
  end.

Fixpoint pages_items (pages : list (list table)) : list LineItem * bool :=
  match pages with
  | [] => ([], true)
  | tables :: rest =>
      let (xs, running) := tables_items tables in
      if running
      then let (ys, running') := pages_items rest in ((xs ++ ys)%list, running')
      else (xs, false)
  end.

(** [_extract_line_items], from the tables of the pages of the PDF. *)
Definition _extract_line_items (pages : list (list table)) : list LineItem :=
  fst (pages_items pages).

End WithFloat.



End LineItemTables.

(* ===================================================================== *)
(** * Properties *)
(* ===================================================================== *)

(** ** Running the monadic checks *)

Lemma _check_dates_run (invoice : Invoice) (s : State) :
  _check_dates invoice s
  = (dates_errors (today (clock s (reads s))) invoice,
     mk_State (seen_invoices s) (clock s) (S (reads s))).
Proof.
  unfold _check_dates, dates_errors, bind, ret, date_today. simpl.
  destruct (3650 <? _), (due_date invoice); simpl; reflexivity.
Qed.

Lemma _check_warnings_run (invoice : Invoice) (s : State) :
  _check_warnings invoice s
  = (warnings_on (today (clock s (reads s))) invoice,
     mk_State (seen_invoices s) (clock s) (S (reads s))).
Proof.
  unfold _check_warnings, warnings_on, bind, ret, date_today. simpl.
  destruct (365 <? _); simpl; reflexivity.
Qed.

Lemma _check_duplicates_run (invoice : Invoice) (s : State) :
  _check_duplicates invoice s
  = (duplicate_errors (seen_invoices s) invoice,
     mk_State ({[ invoice_key invoice ]} ∪ seen_invoices s) (clock s) (reads s)).
Proof.
  unfold _check_duplicates, duplicate_errors, bind, ret, seen_contains, seen_add.
  simpl. destruct (bool_decide _) eqn:E; simpl; [|reflexivity].
  apply bool_decide_eq_true_1 in E. destruct s as [seen c n]; simpl in *.
  f_equal. f_equal. symmetry. apply subseteq_union_1_L.
  apply singleton_subseteq_l. exact E.
Qed.

(** [validate_invoice] reads the clock twice, first for the date check and
    then for the warnings, and adds the identity key to the seen keys. *)
Lemma validate_invoice_run (invoice : Invoice) (s : State) :
  validate_invoice invoice s
  = (let errs := errors_on (today (clock s (reads s))) (seen_invoices s) invoice in
     mk_ValidationResult
       (if PyStr.truthy (invoice_number invoice)
        then invoice_number invoice else "UNKNOWN")
       (Nat.eqb (length errs) 0)
       errs
       (warnings_on (today (clock s (S (reads s)))) invoice),
     mk_State ({[ invoice_key invoice ]} ∪ seen_invoices s) (clock s)
       (S (S (reads s)))).
Proof.
  unfold validate_invoice, bind, ret.
  rewrite _check_dates_run.
  rewrite _check_duplicates_run.
  rewrite _check_warnings_run. simpl. reflexivity.
Qed.

(** ** Counting rule identifiers *)

Lemma count_rule_app (r : string) (a b : list ValidationError) :
  count_rule r (a ++ b) = (count_rule r a + count_rule r b)%nat.
Proof. unfold count_rule. rewrite List.filter_app, length_app. reflexivity. Qed.

Lemma has_rule_app (r : string) (a b : list ValidationError) :
  has_rule r (a ++ b) = has_rule r a || has_rule r b.
Proof. unfold has_rule. apply existsb_app. Qed.

Lemma has_rule_count (r : string) (errs : list ValidationError) :
  has_rule r errs = negb (Nat.eqb (count_rule r errs) 0).
Proof.
  unfold has_rule, count_rule.
  induction errs as [|e errs IH]; simpl; [reflexivity|].
  destruct (String.eqb (rule e) r); simpl; [reflexivity | exact IH].
Qed.

Lemma rules_within_nil (u : list string) : rules_within u [].
Proof. constructor. Qed.

Lemma rules_within_app (u : list string) (a b : list ValidationError) :
  rules_within u a -> rules_within u b -> rules_within u (a ++ b).
Proof. unfold rules_within. intros. apply Forall_app; split; assumption. Qed.

Lemma rules_within_one (u : list string) (e : ValidationError) :
  existsb (String.eqb (rule e)) u = true -> rules_within u [e].
Proof. intros H. constructor; [exact H | constructor]. Qed.

Lemma rules_within_count (u : list string) (r : string) (errs : list ValidationError) :
  rules_within u errs ->
  existsb (String.eqb r) u = false ->
  count_rule r errs = 0%nat.
Proof.
  intros Hw Hr. unfold count_rule.
  induction Hw as [|e errs He _ IH]; simpl; [reflexivity|].
  destruct (String.eqb (rule e) r) eqn:E; [|exact IH].
  apply String.eqb_eq in E. subst r. rewrite He in Hr. discriminate.
Qed.

Ltac rules_cases :=
  repeat match goal with
         | |- rules_within _ (if ?c then _ else _) => destruct c
         | |- rules_within _ (_ ++ _) => apply rules_within_app
         | |- rules_within _ [] => apply rules_within_nil
         | |- rules_within _ [_] => apply rules_within_one; reflexivity
         end.

Lemma required_fields_rules (invoice : Invoice) :
  rules_within ["required_field_missing"; "required_field_empty"]
    (_check_required_fields invoice).
Proof.
  unfold _check_required_fields, REQUIRED_FIELDS, required_field_errors.
  simpl. rules_cases.
Qed.

Lemma dates_rules (d : date) (invoice : Invoice) :
  rules_within ["date_out_of_range"] (dates_errors d invoice).
Proof. unfold dates_errors. rules_cases. Qed.

Lemma currency_rules (invoice : Invoice) :
  rules_within ["invalid_currency"] (_check_currency invoice).
Proof. unfold _check_currency. rules_cases. Qed.

Lemma line_items_sum_rules (invoice : Invoice) :
  rules_within ["line_items_sum_mismatch"] (_check_line_items_sum invoice).
Proof. unfold _check_line_items_sum. rules_cases. Qed.

Lemma gross_rules (invoice : Invoice) :
  rules_within ["gross_calculation_mismatch"] (_check_gross_calculation invoice).
Proof. unfold _check_gross_calculation. rules_cases. Qed.

Lemma due_date_rules (invoice : Invoice) :
  rules_within ["due_date_before_invoice_date"] (_check_due_date invoice).
Proof.
  unfold _check_due_date. destruct (due_date invoice); rules_cases.
Qed.

Lemma duplicate_rules (seen : gset Key) (invoice : Invoice) :
  rules_within ["duplicate_invoice"] (duplicate_errors seen invoice).
Proof. unfold duplicate_errors. rules_cases. Qed.

Lemma line_item_rules (items : list LineItem) (idx : Z) :
  rules_within ["negative_quantity"; "negative_unit_price"]
    (line_item_errors idx items).
Proof.
  revert idx. induction items as [|item rest IH]; intros idx; simpl.
  - apply rules_within_nil.
  - rules_cases; apply IH.
Qed.

Lemma amount_rules (invoice : Invoice) :
  rules_within ["negative_amount"]
    (flat_map amount_errors
       [ ("net_total", net_total invoice); ("tax_amount", tax_amount invoice);
         ("gross_total", gross_total invoice) ]).
Proof. simpl. rules_cases. Qed.

Lemma non_negative_rules (invoice : Invoice) :
  rules_within ["negative_amount"; "negative_quantity"; "negative_unit_price"]
    (_check_non_negative invoice).
Proof.
  unfold _check_non_negative. simpl. rules_cases.
  induction (line_item_rules (line_items invoice) 0) as [|e l He _ IH];
    constructor; [|exact IH].
  simpl in *. destruct (String.eqb (rule e) "negative_amount"); [reflexivity|exact He].
Qed.

Lemma count_errors_on (r : string) (d : date) (seen : gset Key) (invoice : Invoice) :
  count_rule r (errors_on d seen invoice)
  = (count_rule r (_check_required_fields invoice)
     + (count_rule r (dates_errors d invoice)
        + (count_rule r (_check_currency invoice)
           + (count_rule r (_check_line_items_sum invoice)
              + (count_rule r (_check_gross_calculation invoice)
                 + (count_rule r (_check_due_date invoice)
                    + (count_rule r (duplicate_errors seen invoice)
                       + count_rule r (_check_non_negative invoice))))))))%nat.
Proof. unfold errors_on. rewrite !count_rule_app. reflexivity. Qed.

(** Rewrites to [0] the count of a rule in every check that cannot emit it. *)
Ltac foreign_rules :=
  repeat first
    [ rewrite (rules_within_count _ _ _ (required_fields_rules _)) by reflexivity
    | rewrite (rules_within_count _ _ _ (dates_rules _ _)) by reflexivity
    | rewrite (rules_within_count _ _ _ (currency_rules _)) by reflexivity
    | rewrite (rules_within_count _ _ _ (line_items_sum_rules _)) by reflexivity
    | rewrite (rules_within_count _ _ _ (gross_rules _)) by reflexivity
    | rewrite (rules_within_count _ _ _ (due_date_rules _)) by reflexivity
    | rewrite (rules_within_count _ _ _ (duplicate_rules _ _)) by reflexivity
    | rewrite (rules_within_count _ _ _ (non_negative_rules _)) by reflexivity ].

Lemma count_line_items_sum_mismatch (d : date) (seen : gset Key) (invoice : Invoice) :
  count_rule "line_items_sum_mismatch" (errors_on d seen invoice)
  = match line_items invoice with
    | [] => 0%nat
    | _ => if sum_exceeds_tolerance invoice then 1%nat else 0%nat
    end.
Proof.
  rewrite count_errors_on. foreign_rules. simpl.
  unfold _check_line_items_sum, sum_exceeds_tolerance.
  destruct (line_items invoice) as [|item rest]; [reflexivity|].
  cbn [truthy negb]. destruct (PyFloat.gt _ _); reflexivity.
Qed.

Lemma count_gross_calculation_mismatch (d : date) (seen : gset Key) (invoice : Invoice) :
  count_rule "gross_calculation_mismatch" (errors_on d seen invoice)
  = if gross_exceeds_tolerance invoice then 1%nat else 0%nat.
Proof.
  rewrite count_errors_on. foreign_rules. simpl.
  unfold _check_gross_calculation, gross_exceeds_tolerance.
  destruct (PyFloat.gt _ _); reflexivity.
Qed.

Lemma count_duplicate_invoice (d : date) (seen : gset Key) (invoice : Invoice) :
  count_rule "duplicate_invoice" (errors_on d seen invoice)
  = if bool_decide (invoice_key invoice ∈ seen) then 1%nat else 0%nat.
Proof.
  rewrite count_errors_on. foreign_rules. simpl.
  unfold duplicate_errors. destruct (bool_decide _); reflexivity.
Qed.

Lemma count_negative_amount (d : date) (seen : gset Key) (invoice : Invoice) :
  count_rule "negative_amount" (errors_on d seen invoice)
  = count_rule "negative_amount"
      (flat_map amount_errors
         [ ("net_total", net_total invoice); ("tax_amount", tax_amount invoice);
           ("gross_total", gross_total invoice) ]).
Proof.
  rewrite count_errors_on. foreign_rules. simpl.
  unfold _check_non_negative. rewrite count_rule_app.
  rewrite (rules_within_count _ _ _ (line_item_rules _ _)) by reflexivity.
  rewrite Nat.add_0_r. reflexivity.
Qed.

(** ** Single-invoice results *)

(** C1. For every invoice and every engine state, the result of
    [validate_invoice] has [is_valid = true] exactly when its error list
    is empty; and two results with the same error list have the same
    [is_valid], whatever their warnings are. *)
Theorem is_valid_iff_errors_empty :
  (forall (invoice : Invoice) (s : State),
      let r := eval (validate_invoice invoice) s in
      is_valid r = true <-> errors r = [])
  /\ (forall (inv1 inv2 : Invoice) (s1 s2 : State),
         let r1 := eval (validate_invoice inv1) s1 in
         let r2 := eval (validate_invoice inv2) s2 in
         errors r1 = errors r2 -> is_valid r1 = is_valid r2).
Proof.
  split.
  - intros invoice s. unfold eval. rewrite validate_invoice_run. simpl.
    destruct (errors_on _ _ _) as [|e errs]; simpl; split;
      intros H; try reflexivity; discriminate.
  - intros inv1 inv2 s1 s2. unfold eval. rewrite !validate_invoice_run. simpl.
    intros ->. reflexivity.
Qed.

(** Warnings and validity are independent: a valid result may carry
    warnings. *)
Example valid_with_warnings :
  let inv :=
    mk_Invoice "INV-1" None "Seller" None None "Buyer" None None
      (PyDate.mk_date 2024 1 15) None EUR
      (PyFloat.of_Z 100) (PyFloat.of_Z 19) (PyFloat.of_Z 119) [] None None None None in
  let c := fun _ : nat =>
    mk_Reading (PyDate.mk_date 2024 6 1)
      (PyDate.mk_datetime (PyDate.mk_date 2024 6 1) 0 0 0 0) in
  let r := eval (validate_invoice inv) (fresh c 0) in
  is_valid r = true
  /\ map rule (warnings r)
     = ["no_line_items"; "missing_seller_tax_id"; "missing_due_date"].
Proof. vm_compute. split; reflexivity. Qed.

(** C10. The [invoice_id] of a result is the literal "UNKNOWN" when the
    invoice number is the empty string, and the invoice number itself
    otherwise. *)
Theorem invoice_id_unknown_or_number :
  forall (invoice : Invoice) (s : State),
    let r := eval (validate_invoice invoice) s in
    (invoice_number invoice = "" -> invoice_id r = "UNKNOWN")
    /\ (invoice_number invoice <> "" -> invoice_id r = invoice_number invoice).
Proof.
  intros invoice s. unfold eval. rewrite validate_invoice_run. simpl.
  destruct (invoice_number invoice) as [|c rest]; simpl; split; intros H;
    try reflexivity; congruence.
Qed.

(** ** Tolerance checks *)

(** The literals of the validator are the correctly rounded quotients
    1/100 and 1/200. *)
Lemma literals_rounded :
  PyFloat.lit_0_01 = PyFloat.decimal 1 100
  /\ PyFloat.lit_0_005 = PyFloat.decimal 5 1000
  /\ PyFloat.well_formed PyFloat.lit_0_01 = true
  /\ PyFloat.well_formed PyFloat.lit_0_005 = true.
Proof. vm_compute. repeat split; reflexivity. Qed.

(** Line items that sum to the floats 101.0 and 101.01. *)
Example sums_of_the_boundary :
  PyFloat.sum [PyFloat.of_Z 101] = PyFloat.of_Z 101
  /\ PyFloat.sum [PyFloat.decimal 505 10; PyFloat.decimal 505 10] = PyFloat.of_Z 101
  /\ PyFloat.sum [PyFloat.decimal 10101 100] = PyFloat.decimal 10101 100.
Proof. vm_compute. repeat split; reflexivity. Qed.

Lemma has_rule_errors (r : string) (invoice : Invoice) (s : State) :
  has_rule r (errors (eval (validate_invoice invoice) s))
  = negb (Nat.eqb
            (count_rule r (errors_on (today (clock s (reads s)))
                             (seen_invoices s) invoice)) 0).
Proof.
  unfold eval. rewrite validate_invoice_run. simpl. apply has_rule_count.
Qed.

(** C4. [validate_invoice] reports [line_items_sum_mismatch] exactly when
    the line items are not empty and the absolute difference between
    their summed [line_total] and [net_total] is strictly greater than
    [net_total * 0.01].  An invoice without line items never gets the
    error; with [net_total = 100] a sum of 101.00 passes (the difference
    equals the tolerance) and a sum of 101.01 fails. *)
Theorem line_items_sum_mismatch_iff :
  forall (invoice : Invoice) (s : State),
    let errs := errors (eval (validate_invoice invoice) s) in
    let total := PyFloat.sum (map line_total (line_items invoice)) in
    (has_rule "line_items_sum_mismatch" errs = true
     <-> line_items invoice <> []
         /\ PyFloat.gt (PyFloat.abs (PyFloat.sub total (net_total invoice)))
              (PyFloat.mul (net_total invoice) PyFloat.lit_0_01) = true)
    /\ (line_items invoice = [] ->
        has_rule "line_items_sum_mismatch" errs = false)
    /\ (line_items invoice <> [] ->
        net_total invoice = PyFloat.of_Z 100 ->
        total = PyFloat.of_Z 101 ->
        has_rule "line_items_sum_mismatch" errs = false)
    /\ (line_items invoice <> [] ->
        net_total invoice = PyFloat.of_Z 100 ->
        total = PyFloat.decimal 10101 100 ->
        has_rule "line_items_sum_mismatch" errs = true).
Proof.
  intros invoice s errs total. subst errs.
  rewrite has_rule_errors, count_line_items_sum_mismatch.
  unfold sum_exceeds_tolerance. fold total.
  destruct (line_items invoice) as [|item rest] eqn:Hitems.
  - simpl. split; [|split; [|split]].
    + split; [discriminate | intros [H _]; congruence].
    + reflexivity.
    + congruence.
    + congruence.
  - split; [|split; [|split]].
    + destruct (PyFloat.gt _ _); simpl.
      * split; [intros _; split; [discriminate | reflexivity] | reflexivity].
      * split; [discriminate | intros [_ H]; discriminate].
    + discriminate.
    + intros _ Hnet Htot. rewrite Hnet, Htot. vm_compute. reflexivity.
    + intros _ Hnet Htot. rewrite Hnet, Htot. vm_compute. reflexivity.
Qed.

(** C5. [validate_invoice] reports [gross_calculation_mismatch] exactly
    when the absolute difference between [net_total + tax_amount] and
    [gross_total] is strictly greater than [gross_total * 0.005].  With
    net 100 and tax 19, a gross total of 119 passes and a gross total of
    120 fails: the difference is 1.0 and the tolerance is 0.6. *)
Theorem gross_calculation_mismatch_iff :
  forall (invoice : Invoice) (s : State),
    let errs := errors (eval (validate_invoice invoice) s) in
    let diff :=
      PyFloat.abs (PyFloat.sub (PyFloat.add (net_total invoice) (tax_amount invoice))
                     (gross_total invoice)) in
    let tolerance := PyFloat.mul (gross_total invoice) PyFloat.lit_0_005 in
    (has_rule "gross_calculation_mismatch" errs = true
     <-> PyFloat.gt diff tolerance = true)
    /\ (net_total invoice = PyFloat.of_Z 100 ->
        tax_amount invoice = PyFloat.of_Z 19 ->
        gross_total invoice = PyFloat.of_Z 119 ->
        has_rule "gross_calculation_mismatch" errs = false)
    /\ (net_total invoice = PyFloat.of_Z 100 ->
        tax_amount invoice = PyFloat.of_Z 19 ->
        gross_total invoice = PyFloat.of_Z 120 ->
        diff = PyFloat.of_Z 1 /\ tolerance = PyFloat.decimal 6 10
        /\ has_rule "gross_calculation_mismatch" errs = true).
Proof.
  intros invoice s errs diff tolerance. subst errs.
  rewrite has_rule_errors, count_gross_calculation_mismatch.
  unfold gross_exceeds_tolerance. fold diff tolerance.
  split; [|split].
  - destruct (PyFloat.gt diff tolerance); simpl.
    + split; reflexivity.
    + split; discriminate.
  - intros Hn Ht Hg. subst diff tolerance. rewrite Hn, Ht, Hg.
    vm_compute. reflexivity.
  - intros Hn Ht Hg. subst diff tolerance. rewrite Hn, Ht, Hg.
    vm_compute. repeat split; reflexivity.
Qed.

(** A tolerance computed from a zero reference total is zero, and every
    discrepancy that is a number other than zero exceeds it. *)
Lemma zero_reference_total (x z c : float) :
  c = PyFloat.lit_0_01 \/ c = PyFloat.lit_0_005 ->
  PyFloat.eqb z (PyFloat.of_Z 0) = true ->
  PyFloat.eqb (PyFloat.mul z c) (PyFloat.of_Z 0) = true
  /\ (PyFloat.neb x (PyFloat.of_Z 0) = true ->
      PyFloat.is_nan x = false ->
      PyFloat.gt (PyFloat.abs (PyFloat.sub x z)) (PyFloat.mul z c) = true).
Proof.
  intros Hc Hz.
  destruct z as [sz|sz| |sz mz ez]; try (destruct sz); try discriminate Hz.
  all: destruct Hc as [-> | ->]; (split; [reflexivity|]);
    destruct x as [sx|sx| |sx mx ex]; intros Hx Hnan;
    try discriminate Hx; try discriminate Hnan; reflexivity.
Qed.

(** C6, as amended.  When [net_total] is zero the tolerance of the
    line-item check is zero, and the check fails for every non-empty list
    of line items whose summed [line_total] is a number other than zero
    (not NaN); when [gross_total] is zero the tolerance of the gross check
    is zero, and the check fails whenever [net_total + tax_amount] is a
    number other than zero (not NaN). *)
Theorem zero_total_fails_on_nonzero_number :
  forall (invoice : Invoice) (s : State),
    let errs := errors (eval (validate_invoice invoice) s) in
    let total := PyFloat.sum (map line_total (line_items invoice)) in
    let expected_gross := PyFloat.add (net_total invoice) (tax_amount invoice) in
    (PyFloat.eqb (net_total invoice) (PyFloat.of_Z 0) = true ->
     PyFloat.eqb (PyFloat.mul (net_total invoice) PyFloat.lit_0_01) (PyFloat.of_Z 0) = true
     /\ (line_items invoice <> [] ->
         PyFloat.neb total (PyFloat.of_Z 0) = true ->
         PyFloat.is_nan total = false ->
         has_rule "line_items_sum_mismatch" errs = true))
    /\ (PyFloat.eqb (gross_total invoice) (PyFloat.of_Z 0) = true ->
        PyFloat.eqb (PyFloat.mul (gross_total invoice) PyFloat.lit_0_005) (PyFloat.of_Z 0) = true
        /\ (PyFloat.neb expected_gross (PyFloat.of_Z 0) = true ->
            PyFloat.is_nan expected_gross = false ->
            has_rule "gross_calculation_mismatch" errs = true)).
Proof.
  intros invoice s errs total expected_gross. subst errs. split.
  - intros Hz.
    destruct (zero_reference_total total _ _ (or_introl eq_refl) Hz) as [Htol Hgt].
    split; [exact Htol|]. intros Hitems Hne Hnan.
    rewrite has_rule_errors, count_line_items_sum_mismatch.
    unfold sum_exceeds_tolerance. fold total. rewrite (Hgt Hne Hnan).
    destruct (line_items invoice); [congruence | reflexivity].
  - intros Hz.
    destruct (zero_reference_total expected_gross _ _ (or_intror eq_refl) Hz)
      as [Htol Hgt].
    split; [exact Htol|]. intros Hne Hnan.
    rewrite has_rule_errors, count_gross_calculation_mismatch.
    unfold gross_exceeds_tolerance. fold expected_gross. rewrite (Hgt Hne Hnan).
    reflexivity.
Qed.

(** C6, as stated, fails on NaN.  A record with zero [net_total] and one
    line whose [line_total] is NaN passes construction; its sum differs
    from zero ([total != 0] holds), yet no [line_items_sum_mismatch] is
    reported.  Likewise a record with zero [gross_total] and NaN
    [net_total] gets no [gross_calculation_mismatch]. *)
Lemma zero_total_nan_counterexample :
  (Invoice_new Samples.nan_line = inr Samples.nan_line
   /\ PyFloat.eqb (net_total Samples.nan_line) (PyFloat.of_Z 0) = true
   /\ line_items Samples.nan_line <> []
   /\ PyFloat.neb (PyFloat.sum (map line_total (line_items Samples.nan_line)))
        (PyFloat.of_Z 0) = true
   /\ has_rule "line_items_sum_mismatch"
        (errors (eval (validate_invoice Samples.nan_line)
                   (fresh Samples.ticking_clock 0))) = false)
  /\ (Invoice_new Samples.nan_net = inr Samples.nan_net
      /\ PyFloat.eqb (gross_total Samples.nan_net) (PyFloat.of_Z 0) = true
      /\ PyFloat.neb (PyFloat.add (net_total Samples.nan_net)
                        (tax_amount Samples.nan_net)) (PyFloat.of_Z 0) = true
      /\ has_rule "gross_calculation_mismatch"
           (errors (eval (validate_invoice Samples.nan_net)
                      (fresh Samples.ticking_clock 0))) = false).
Proof.
  split.
  - split; [reflexivity|]. split; [reflexivity|]. split; [discriminate|].
    split; [reflexivity|].
    rewrite has_rule_errors, count_line_items_sum_mismatch. reflexivity.
  - split; [reflexivity|]. split; [reflexivity|]. split; [reflexivity|].
    rewrite has_rule_errors, count_gross_calculation_mismatch. reflexivity.
Qed.

(** ** Construction *)

Lemma le_zero_not_negative (v : float) :
  PyFloat.le (PyFloat.of_Z 0) v = true -> PyFloat.lt v (PyFloat.of_Z 0) = false.
Proof.
  destruct v as [sv|sv| |sv mv ev]; try (destruct sv); intros H;
    try discriminate H; reflexivity.
Qed.

Lemma Invoice_new_ok (fields : Invoice) :
  Invoice_new fields = inr fields
  <-> PyFloat.lt (net_total fields) (PyFloat.of_Z 0) = false
      /\ PyFloat.lt (tax_amount fields) (PyFloat.of_Z 0) = false
      /\ PyFloat.lt (gross_total fields) (PyFloat.of_Z 0) = false.
Proof.
  unfold Invoice_new, run_field_validator, non_negative_amounts.
  destruct (PyFloat.lt (net_total fields) _),
           (PyFloat.lt (tax_amount fields) _),
           (PyFloat.lt (gross_total fields) _); simpl;
    split; try discriminate; intuition discriminate.
Qed.

Lemma Invoice_new_inr (fields inv : Invoice) :
  Invoice_new fields = inr inv -> inv = fields /\ Invoice_new inv = inr inv.
Proof.
  unfold Invoice_new. destruct (_ ++ _)%list eqn:E; [|discriminate].
  intros [= <-]. split; [reflexivity|]. rewrite E. reflexivity.
Qed.

(** C8. Construction of an [Invoice] fails exactly when [net_total],
    [tax_amount] or [gross_total] is negative; the error then names only
    such fields, each with the message "Amounts cannot be negative".  When
    the three values are non-negative, construction succeeds and returns
    the record unchanged.  Construction takes no engine state: it is
    decided before any validation pass. *)
Theorem negative_total_rejected_at_construction :
  forall fields : Invoice,
    ((PyFloat.lt (net_total fields) (PyFloat.of_Z 0) = true
      \/ PyFloat.lt (tax_amount fields) (PyFloat.of_Z 0) = true
      \/ PyFloat.lt (gross_total fields) (PyFloat.of_Z 0) = true)
     <-> exists errs : ConstructionError,
           Invoice_new fields = inl errs /\ errs <> []
           /\ Forall (fun e => snd e = "Amounts cannot be negative") errs)
    /\ (PyFloat.le (PyFloat.of_Z 0) (net_total fields) = true ->
        PyFloat.le (PyFloat.of_Z 0) (tax_amount fields) = true ->
        PyFloat.le (PyFloat.of_Z 0) (gross_total fields) = true ->
        Invoice_new fields = inr fields).
Proof.
  intros fields. split.
  - unfold Invoice_new, run_field_validator, non_negative_amounts.
    destruct (PyFloat.lt (net_total fields) _),
             (PyFloat.lt (tax_amount fields) _),
             (PyFloat.lt (gross_total fields) _); simpl;
      (split;
       [ intros H; try (eexists; split; [reflexivity|]; split;
                        [discriminate | repeat constructor]);
         destruct H as [H|[H|H]]; discriminate H
       | intros [errs [H _]]; try discriminate H; auto ]).
  - intros Hn Ht Hg. apply Invoice_new_ok.
    repeat split; apply le_zero_not_negative; assumption.
Qed.

Lemma has_negative_quantity (items : list LineItem) (idx : Z) :
  has_rule "negative_quantity" (line_item_errors idx items)
  = existsb (fun it => PyFloat.lt (quantity it) (PyFloat.of_Z 0)) items.
Proof.
  revert idx. induction items as [|it rest IH]; intros idx; [reflexivity|].
  cbn [line_item_errors existsb]. rewrite !has_rule_app, IH.
  destruct (PyFloat.lt (quantity it) _), (PyFloat.lt (unit_price it) _);
    reflexivity.
Qed.

Lemma has_negative_unit_price (items : list LineItem) (idx : Z) :
  has_rule "negative_unit_price" (line_item_errors idx items)
  = existsb (fun it => PyFloat.lt (unit_price it) (PyFloat.of_Z 0)) items.
Proof.
  revert idx. induction items as [|it rest IH]; intros idx; [reflexivity|].
  cbn [line_item_errors existsb]. rewrite !has_rule_app, IH.
  destruct (PyFloat.lt (quantity it) _), (PyFloat.lt (unit_price it) _);
    reflexivity.
Qed.

Lemma has_line_item_rule (r : string) (d : date) (seen : gset Key) (invoice : Invoice) :
  r = "negative_quantity" \/ r = "negative_unit_price" ->
  has_rule r (errors_on d seen invoice)
  = has_rule r (line_item_errors 0 (line_items invoice)).
Proof.
  intros Hr. rewrite !has_rule_count, count_errors_on.
  unfold _check_non_negative. rewrite count_rule_app.
  destruct Hr as [-> | ->]; foreign_rules;
    rewrite (rules_within_count _ _ _ (amount_rules _)) by reflexivity;
    reflexivity.
Qed.

(** C9. For a record that passed construction, [validate_invoice] never
    reports [negative_amount]: the branch is unreachable.  The line-item
    rules stay reachable: [negative_quantity] and [negative_unit_price]
    are reported exactly when some line has a negative quantity or unit
    price, which construction does not look at. *)
Theorem negative_amount_unreachable_after_construction :
  forall (fields inv : Invoice) (s : State),
    Invoice_new fields = inr inv ->
    let errs := errors (eval (validate_invoice inv) s) in
    has_rule "negative_amount" errs = false
    /\ has_rule "negative_quantity" errs
       = existsb (fun it => PyFloat.lt (quantity it) (PyFloat.of_Z 0)) (line_items inv)
    /\ has_rule "negative_unit_price" errs
       = existsb (fun it => PyFloat.lt (unit_price it) (PyFloat.of_Z 0)) (line_items inv).
Proof.
  intros fields inv s Hnew errs. subst errs.
  apply Invoice_new_inr in Hnew. destruct Hnew as [_ Hok].
  apply Invoice_new_ok in Hok. destruct Hok as (Hn & Ht & Hg).
  split; [|split].
  - rewrite has_rule_errors, count_negative_amount.
    cbn [flat_map amount_errors]. rewrite Hn, Ht, Hg. reflexivity.
  - unfold eval. rewrite validate_invoice_run. cbn [errors fst].
    rewrite has_line_item_rule by (left; reflexivity).
    apply has_negative_quantity.
  - unfold eval. rewrite validate_invoice_run. cbn [errors fst].
    rewrite has_line_item_rule by (right; reflexivity).
    apply has_negative_unit_price.
Qed.

(** A constructed record with non-negative totals and a negative line:
    no [negative_amount], but both line-item rules fire. *)
Lemma negative_amount_unreachable_witness :
  Invoice_new Samples.negative_line = inr Samples.negative_line
  /\ has_rule "negative_amount"
       (errors (eval (validate_invoice Samples.negative_line)
                  (fresh Samples.ticking_clock 0))) = false
  /\ has_rule "negative_quantity"
       (errors (eval (validate_invoice Samples.negative_line)
                  (fresh Samples.ticking_clock 0))) = true
  /\ has_rule "negative_unit_price"
       (errors (eval (validate_invoice Samples.negative_line)
                  (fresh Samples.ticking_clock 0))) = true.
Proof.
  split; [reflexivity|].
  exact (negative_amount_unreachable_after_construction
           Samples.negative_line Samples.negative_line
           (fresh Samples.ticking_clock 0) eq_refl).
Defined.

(** ** Batches *)

Lemma batch_loop_run (invoices : list Invoice) :
  forall (acc : list ValidationResult) (ec : gmap string Z) (s : State),
    batch_loop invoices acc ec s
    = (((acc ++ fst (run_each invoices s))%list,
        fold_left count_error (all_errors (fst (run_each invoices s))) ec),
       snd (run_each invoices s)).
Proof.
  induction invoices as [|inv rest IH]; intros acc ec s.
  - simpl. unfold ret. rewrite app_nil_r. reflexivity.
  - cbn [batch_loop run_each]. unfold bind.
    destruct (validate_invoice inv s) as [r s1].
    rewrite IH. destruct (run_each rest s1) as [rs s2]. cbn [fst snd].
    unfold all_errors. cbn [map concat]. rewrite fold_left_app.
    rewrite <- app_assoc. reflexivity.
Qed.

Lemma sum_Z_ones {A : Type} (l : list A) :
  sum_Z (map (fun _ => 1) l) = Z.of_nat (length l).
Proof. induction l as [|a l IH]; simpl sum_Z; [reflexivity|]. rewrite IH. simpl length. lia. Qed.

Lemma validate_batch_run (invoices : list Invoice) (s : State) :
  validate_batch invoices s
  = (let s0 := mk_State ∅ (clock s) (reads s) in
     let rs := fst (run_each invoices s0) in
     let s1 := snd (run_each invoices s0) in
     let valid_count := Z.of_nat (length (List.filter is_valid rs)) in
     (mk_BatchOutput rs
        (mk_ValidationSummary (Z.of_nat (length invoices)) valid_count
           (Z.of_nat (length invoices) - valid_count)
           (fold_left count_error (all_errors rs) ∅)
           (utcnow (clock s1 (reads s1)))),
      mk_State (seen_invoices s1) (clock s1) (S (reads s1)))).
Proof.
  unfold validate_batch, bind, seen_clear, ret, datetime_utcnow.
  rewrite batch_loop_run. cbn [app]. rewrite sum_Z_ones. reflexivity.
Qed.

Lemma run_each_length (invoices : list Invoice) :
  forall s : State, length (fst (run_each invoices s)) = length invoices.
Proof.
  induction invoices as [|inv rest IH]; intros s; [reflexivity|].
  cbn [run_each]. destruct (validate_invoice inv s) as [r s1].
  specialize (IH s1). destruct (run_each rest s1) as [rs s2].
  simpl in *. rewrite IH. reflexivity.
Qed.

Lemma run_each_lookup (invoices : list Invoice) :
  forall (s : State) (i : nat) (inv : Invoice),
    invoices !! i = Some inv ->
    fst (run_each invoices s) !! i
    = Some (eval (validate_invoice inv) (state_after (take i invoices) s)).
Proof.
  unfold state_after, eval.
  induction invoices as [|x rest IH]; intros s i inv Hi; [discriminate|].
  destruct i as [|i].
  - simpl in Hi. injection Hi as ->. cbn [run_each take snd].
    destruct (validate_invoice inv s) as [r s1].
    destruct (run_each rest s1) as [rs s2]. reflexivity.
  - simpl in Hi. cbn [run_each take].
    destruct (validate_invoice x s) as [r s1].
    specialize (IH s1 i inv Hi).
    destruct (run_each rest s1) as [rs s2].
    destruct (run_each (take i rest) s1) as [rs' s2'].
    exact IH.
Qed.

Lemma run_each_state (invoices : list Invoice) :
  forall s : State,
    seen_invoices (state_after invoices s)
      = list_to_set (map invoice_key invoices) ∪ seen_invoices s
    /\ clock (state_after invoices s) = clock s
    /\ reads (state_after invoices s) = (reads s + 2 * length invoices)%nat.
Proof.
  unfold state_after.
  induction invoices as [|inv rest IH]; intros s.
  - simpl. repeat split; [|lia]. rewrite (left_id_L ∅ (∪)). reflexivity.
  - cbn [run_each]. rewrite validate_invoice_run. cbv zeta.
    match goal with
    | |- context [run_each rest ?s1] =>
        destruct (IH s1) as (Hseen & Hclock & Hreads);
        destruct (run_each rest s1) as [rs s2]
    end.
    cbn [fst snd seen_invoices clock reads] in *.
    rewrite Hseen, Hclock, Hreads. cbn [map list_to_set length].
    repeat split; [|lia].
    rewrite (assoc_L (∪)). f_equal. apply (comm_L (∪)).
Qed.

Lemma count_error_lookup (ec : gmap string Z) (e : ValidationError) (r : string) :
  count_error ec e !! r
  = if String.eqb (rule e) r
    then Some (default 0 (ec !! r) + 1)
    else ec !! r.
Proof.
  unfold count_error. destruct (String.eqb (rule e) r) eqn:E.
  - apply String.eqb_eq in E. subst r. apply lookup_insert_eq.
  - apply String.eqb_neq in E. apply lookup_insert_ne. exact E.
Qed.

(** After the counting loop, a rule that occurred [n > 0] times has its
    former count plus [n]; a rule that did not occur keeps its entry, or
    its absence. *)
Lemma fold_count_error_lookup (errs : list ValidationError) :
  forall (ec : gmap string Z) (r : string),
    fold_left count_error errs ec !! r
    = if Nat.eqb (count_rule r errs) 0
      then ec !! r
      else Some (default 0 (ec !! r) + Z.of_nat (count_rule r errs)).
Proof.
  unfold count_rule.
  induction errs as [|e errs IH]; intros ec r; [reflexivity|].
  cbn [fold_left List.filter]. rewrite IH, count_error_lookup.
  destruct (String.eqb (rule e) r); cbn [length default];
    destruct (length _) as [|n]; cbn [Nat.eqb default]; try reflexivity;
    f_equal; unfold id; lia.
Qed.

(** C3. [validate_batch] returns one result per record, in input order:
    the i-th result is that of [validate_invoice] on the i-th record, in
    the state left by the records before it, starting from cleared seen
    keys.  In the summary, [error_counts] has an entry for exactly the
    rules that occurred, holding the number of their occurrences over all
    errors of all results; [valid_invoices] is the number of results with
    [is_valid] true, and [invalid_invoices] is [total_invoices] minus
    [valid_invoices]. *)
Theorem validate_batch_results_and_summary :
  forall (invoices : list Invoice) (s : State),
    let out := eval (validate_batch invoices) s in
    length (results out) = length invoices
    /\ (forall (i : nat) (inv : Invoice),
           invoices !! i = Some inv ->
           results out !! i
           = Some (eval (validate_invoice inv)
                     (state_after (take i invoices) (exec seen_clear s))))
    /\ (forall r : string,
           error_counts (summary out) !! r
           = if Nat.eqb (count_rule r (all_errors (results out))) 0
             then None
             else Some (Z.of_nat (count_rule r (all_errors (results out)))))
    /\ total_invoices (summary out) = Z.of_nat (length invoices)
    /\ valid_invoices (summary out)
       = Z.of_nat (length (List.filter is_valid (results out)))
    /\ invalid_invoices (summary out)
       = total_invoices (summary out) - valid_invoices (summary out).
Proof.
  intros invoices s out. subst out. unfold eval.
  rewrite validate_batch_run. cbv zeta.
  cbn [fst results summary error_counts total_invoices valid_invoices
       invalid_invoices].
  split; [apply run_each_length|].
  split; [intros i inv Hi; apply run_each_lookup; exact Hi|].
  split; [|repeat split].
  intros r. rewrite fold_count_error_lookup. rewrite lookup_empty.
  destruct (Nat.eqb _ 0); [reflexivity|]. cbn [default]. f_equal.
Qed.

(** The batch of the summary example, with rules the typed record can
    fail: the second record fails the gross check, the third fails the
    gross check and the due-date order. *)
Example summary_of_three :
  let bad_gross :=
    Samples.invoice "INV-2" (PyFloat.of_Z 100) (PyFloat.of_Z 19) (PyFloat.of_Z 120) [] in
  let bad_both :=
    mk_Invoice "INV-3" None "Tech Solutions GmbH" None None "Example Corp AG"
      None None (PyDate.mk_date 2024 1 15) (Some (PyDate.mk_date 2024 1 14)) EUR
      (PyFloat.of_Z 100) (PyFloat.of_Z 19) (PyFloat.of_Z 120) [] None None None None in
  let out := eval (validate_batch [Samples.clean "INV-1"; bad_gross; bad_both])
               (fresh Samples.ticking_clock 0) in
  map_to_list (error_counts (summary out))
    ≡ₚ [("gross_calculation_mismatch", 2); ("due_date_before_invoice_date", 1)]
  /\ valid_invoices (summary out) = 1
  /\ invalid_invoices (summary out) = 2
  /\ map invoice_id (results out) = ["INV-1"; "INV-2"; "INV-3"].
Proof.
  vm_compute. repeat split; reflexivity.
Qed.

Lemma key_seen_before (invoices : list Invoice) (i : nat) (k : Key) :
  k ∈ (list_to_set (map invoice_key (take i invoices)) : gset Key)
  <-> exists (j : nat) (other : Invoice),
        (j < i)%nat /\ invoices !! j = Some other /\ invoice_key other = k.
Proof.
  rewrite elem_of_list_to_set, list_elem_of_In, in_map_iff. split.
  - intros (other & Hk & Hin).
    apply list_elem_of_In, list_elem_of_lookup in Hin. destruct Hin as [j Hj].
    apply lookup_take_Some in Hj. destruct Hj as [Hj Hlt].
    exists j, other. auto.
  - intros (j & other & Hlt & Hj & Hk).
    exists other. split; [exact Hk|].
    apply list_elem_of_In, list_elem_of_lookup. exists j.
    apply lookup_take_Some. auto.
Qed.

(** C2. In one [validate_batch] run, whatever keys the engine had seen
    before the call, the record at position [i] gets no
    [duplicate_invoice] error when no earlier record of the list has its
    identity key, and exactly one when some earlier record has it.  So in
    every group of records sharing a key the earliest is never flagged
    and each later one is flagged once. *)
Theorem duplicate_flagged_after_first :
  forall (invoices : list Invoice) (s : State) (i : nat) (inv : Invoice),
    invoices !! i = Some inv ->
    exists r : ValidationResult,
      results (eval (validate_batch invoices) s) !! i = Some r
      /\ ((forall (j : nat) (other : Invoice),
              (j < i)%nat -> invoices !! j = Some other ->
              invoice_key other <> invoice_key inv) ->
          count_rule "duplicate_invoice" (errors r) = 0%nat)
      /\ ((exists (j : nat) (other : Invoice),
              (j < i)%nat /\ invoices !! j = Some other
              /\ invoice_key other = invoice_key inv) ->
          count_rule "duplicate_invoice" (errors r) = 1%nat).
Proof.
  intros invoices s i inv Hi.
  unfold eval at 1. rewrite validate_batch_run. cbv zeta. cbn [fst results].
  rewrite (run_each_lookup _ _ _ _ Hi).
  eexists. split; [reflexivity|].
  unfold eval. rewrite validate_invoice_run. cbv zeta. cbn [fst errors].
  rewrite count_duplicate_invoice.
  destruct (run_each_state (take i invoices) (mk_State ∅ (clock s) (reads s)))
    as (Hseen & _ & _).
  rewrite Hseen. cbn [seen_invoices].
  split.
  - intros Hnone. rewrite bool_decide_eq_false_2; [reflexivity|].
    intros Hin. apply elem_of_union in Hin. destruct Hin as [Hin|Hin].
    + apply key_seen_before in Hin. destruct Hin as (j & other & Hlt & Hj & Hk).
      exact (Hnone j other Hlt Hj Hk).
    + exact (not_elem_of_empty _ Hin).
  - intros Hsome. rewrite bool_decide_eq_true_2; [reflexivity|].
    apply elem_of_union. left. apply key_seen_before. exact Hsome.
Qed.

(** In the sample batch the third record repeats the key of the first. *)
Lemma duplicate_flagged_witness :
  exists r : ValidationResult,
    results (eval (validate_batch Samples.batch_with_duplicates)
               (fresh Samples.ticking_clock 0)) !! 2%nat = Some r
    /\ count_rule "duplicate_invoice" (errors r) = 1%nat.
Proof.
  destruct (duplicate_flagged_after_first Samples.batch_with_duplicates
              (fresh Samples.ticking_clock 0) 2 (Samples.clean "INV-1") eq_refl)
    as (r & Hr & _ & Hdup).
  exists r. split; [exact Hr|]. apply Hdup.
  exists 0%nat, (Samples.clean "INV-1").
  split; [lia|]. split; reflexivity.
Defined.

(** Records A, B, C with one key and a record with another key: only the
    later A-records are flagged, once each. *)
Example duplicates_of_the_sample_batch :
  map (fun r => count_rule "duplicate_invoice" (errors r))
    (results (eval (validate_batch Samples.batch_with_duplicates)
                (fresh Samples.ticking_clock 0)))
  = [0; 0; 1; 1]%nat.
Proof. vm_compute. reflexivity. Qed.

(** ** Repeating a batch *)

Lemma date_is_later (d : date) (s s' : State) :
  clock s' = clock s -> (reads s <= reads s')%nat ->
  date_is d s -> date_is d s'.
Proof.
  unfold date_is. intros Hc Hr Hd n Hn. rewrite Hc. apply Hd. lia.
Qed.

Lemma validate_invoice_same_date (d : date) (inv : Invoice) (s1 s2 : State) :
  seen_invoices s1 = seen_invoices s2 ->
  date_is d s1 -> date_is d s2 ->
  fst (validate_invoice inv s1) = fst (validate_invoice inv s2)
  /\ seen_invoices (snd (validate_invoice inv s1))
     = seen_invoices (snd (validate_invoice inv s2))
  /\ date_is d (snd (validate_invoice inv s1))
  /\ date_is d (snd (validate_invoice inv s2)).
Proof.
  intros Hseen H1 H2. rewrite !validate_invoice_run. cbv zeta. cbn [fst snd].
  rewrite (H1 (reads s1)), (H1 (S (reads s1))) by lia.
  rewrite (H2 (reads s2)), (H2 (S (reads s2))) by lia.
  rewrite Hseen. repeat split.
  - eapply date_is_later; [| |exact H1]; simpl; [reflexivity | lia].
  - eapply date_is_later; [| |exact H2]; simpl; [reflexivity | lia].
Qed.

Lemma run_each_same_date (d : date) (invoices : list Invoice) :
  forall s1 s2 : State,
    seen_invoices s1 = seen_invoices s2 ->
    date_is d s1 -> date_is d s2 ->
    fst (run_each invoices s1) = fst (run_each invoices s2).
Proof.
  induction invoices as [|inv rest IH]; intros s1 s2 Hseen H1 H2;
    [reflexivity|].
  cbn [run_each].
  destruct (validate_invoice_same_date d inv s1 s2 Hseen H1 H2)
    as (Hr & Hs & H1' & H2').
  destruct (validate_invoice inv s1) as [r1 t1].
  destruct (validate_invoice inv s2) as [r2 t2].
  cbn [fst snd] in *. subst r2.
  specialize (IH t1 t2 Hs H1' H2').
  destruct (run_each rest t1) as [rs1 u1].
  destruct (run_each rest t2) as [rs2 u2].
  cbn [fst] in *. subst rs2. reflexivity.
Qed.

(** C7, as amended.  Two runs of [validate_batch] on the same list, each
    made while the clock shows the same calendar date, return the same
    results and summaries that agree on [total_invoices],
    [valid_invoices], [invalid_invoices] and [error_counts]; the seen keys
    left by earlier calls play no part.  A run leaves the engine in a
    state from which the next run, on the same day, is again covered. *)
Theorem validate_batch_repeatable_same_day :
  forall (invoices : list Invoice) (s1 s2 : State) (d : date),
    date_is d s1 -> date_is d s2 ->
    let out1 := eval (validate_batch invoices) s1 in
    let out2 := eval (validate_batch invoices) s2 in
    results out1 = results out2
    /\ summary_counts (summary out1) = summary_counts (summary out2)
    /\ date_is d (exec (validate_batch invoices) s1).
Proof.
  intros invoices s1 s2 d H1 H2 out1 out2. subst out1 out2.
  unfold eval, exec. rewrite !validate_batch_run. cbv zeta.
  cbn [fst snd results summary summary_counts total_invoices valid_invoices
       invalid_invoices error_counts].
  assert (Hrs : fst (run_each invoices (mk_State ∅ (clock s1) (reads s1)))
                = fst (run_each invoices (mk_State ∅ (clock s2) (reads s2)))).
  { apply (run_each_same_date d); [reflexivity | exact H1 | exact H2]. }
  rewrite Hrs. split; [reflexivity|]. split; [reflexivity|].
  destruct (run_each_state invoices (mk_State ∅ (clock s1) (reads s1)))
    as (_ & Hclock & Hreads).
  unfold state_after in Hclock, Hreads.
  eapply date_is_later; [| |exact H1]; cbn [clock reads].
  - rewrite Hclock. reflexivity.
  - rewrite Hreads. cbn [reads]. lia.
Qed.

(** The same engine validates the sample batch twice on one day. *)
Lemma validate_batch_repeatable_witness :
  results (eval (validate_batch Samples.batch_with_duplicates) Samples.noon)
  = results (eval (validate_batch Samples.batch_with_duplicates) Samples.noon_after)
  /\ summary_counts
       (summary (eval (validate_batch Samples.batch_with_duplicates) Samples.noon))
     = summary_counts
         (summary (eval (validate_batch Samples.batch_with_duplicates)
                     Samples.noon_after)).
Proof.
  assert (H1 : date_is Samples.june_1st Samples.noon)
    by (intros n _; reflexivity).
  assert (H2 : date_is Samples.june_1st Samples.noon_after)
    by (intros n _; reflexivity).
  destruct (validate_batch_repeatable_same_day Samples.batch_with_duplicates
              Samples.noon Samples.noon_after Samples.june_1st H1 H2)
    as (Hr & Hc & _).
  split; [exact Hr | exact Hc].
Defined.

(** C7, as stated, fails.  Run twice in a row on one engine, or on a fresh
    engine for the second run, the same list gets two summaries that
    differ in [validation_timestamp]; and when midnight passes between
    the runs the results differ too, here in the age that the
    [old_invoice] warning reports. *)
Lemma validate_batch_twice_counterexample :
  summary (eval (validate_batch Samples.batch_with_duplicates) Samples.noon)
  <> summary (eval (validate_batch Samples.batch_with_duplicates) Samples.noon_after)
  /\ summary (eval (validate_batch Samples.batch_with_duplicates) Samples.noon)
     <> summary (eval (validate_batch Samples.batch_with_duplicates)
                   (fresh (clock Samples.noon_after) (reads Samples.noon_after)))
  /\ results (eval (validate_batch [Samples.old]) Samples.night)
     <> results (eval (validate_batch [Samples.old]) Samples.night_after).
Proof.
  split; [|split].
  - intros H. apply (f_equal validation_timestamp) in H.
    vm_compute in H. discriminate H.
  - intros H. apply (f_equal validation_timestamp) in H.
    vm_compute in H. discriminate H.
  - intros H.
    apply (f_equal (map (fun r => map message (warnings r)))) in H.
    vm_compute in H. discriminate H.
Qed.

(* ===================================================================== *)
(** * Further properties of the engine *)
(* ===================================================================== *)

(** ** Blank strings *)

Lemma lstrip_empty_iff (s : string) :
  PyStr.lstrip s = "" <-> all_space s = true.
Proof.
  unfold all_space. induction s as [|c rest IH]; simpl; [tauto|].
  destruct (PyStr.is_space c); simpl; [exact IH|].
  split; discriminate.
Qed.

Lemma all_space_rev_onto (s acc : string) :
  all_space (PyStr.rev_onto s acc) = all_space s && all_space acc.
Proof.
  unfold all_space. revert acc. induction s as [|c rest IH]; intros acc; simpl.
  - reflexivity.
  - rewrite IH. simpl. destruct (PyStr.is_space c); simpl.
    + reflexivity.
    + rewrite andb_false_r. reflexivity.
Qed.

Lemma rev_onto_empty (s acc : string) :
  PyStr.rev_onto s acc = "" -> s = "" /\ acc = "".
Proof.
  revert acc. induction s as [|c rest IH]; intros acc H; simpl in H.
  - auto.
  - apply IH in H. destruct H as [_ H]. discriminate H.
Qed.

Lemma lstrip_stable (s : string) :
  all_space s = false -> all_space (PyStr.lstrip s) = false.
Proof.
  unfold all_space. induction s as [|c rest IH]; simpl; [auto|].
  destruct (PyStr.is_space c) eqn:E; simpl; [exact IH|].
  intros _. rewrite E. reflexivity.
Qed.

(** [s.strip()] is empty exactly when [s] consists of whitespace only. *)
Lemma strip_empty_iff (s : string) :
  PyStr.strip s = "" <-> all_space s = true.
Proof.
  unfold PyStr.strip, PyStr.reverse. split.
  - intros H. apply rev_onto_empty in H. destruct H as [H _].
    apply lstrip_empty_iff in H. rewrite all_space_rev_onto, andb_true_r in H.
    destruct (all_space s) eqn:E; [reflexivity|].
    apply lstrip_stable in E. congruence.
  - intros H. apply lstrip_empty_iff in H. rewrite H. reflexivity.
Qed.

Lemma blank_all_space (s : string) :
  negb (PyStr.truthy (PyStr.strip s)) = all_space s.
Proof.
  destruct (all_space s) eqn:E.
  - apply strip_empty_iff in E. rewrite E. reflexivity.
  - destruct (PyStr.strip s) eqn:S; [|reflexivity].
    apply strip_empty_iff in S. congruence.
Qed.

(** ** Rules a typed record can and cannot trigger *)

Lemma count_required_field_empty (invoice : Invoice) :
  count_rule "required_field_empty" (_check_required_fields invoice)
  = (Nat.b2n (all_space (invoice_number invoice))
     + Nat.b2n (all_space (seller_name invoice))
     + Nat.b2n (all_space (buyer_name invoice)))%nat.
Proof.
  unfold _check_required_fields, REQUIRED_FIELDS, required_field_errors.
  cbn [flat_map getattr String.eqb Ascii.eqb Bool.eqb].
  rewrite !app_nil_l, !app_nil_r, !count_rule_app, !blank_all_space.
  destruct (all_space (invoice_number invoice)),
           (all_space (seller_name invoice)),
           (all_space (buyer_name invoice)), (currency invoice); reflexivity.
Qed.

Lemma count_required_field_missing (invoice : Invoice) :
  count_rule "required_field_missing" (_check_required_fields invoice) = 0%nat.
Proof.
  unfold _check_required_fields, REQUIRED_FIELDS, required_field_errors.
  cbn [flat_map getattr String.eqb Ascii.eqb Bool.eqb].
  rewrite !app_nil_l, !app_nil_r, !count_rule_app, !blank_all_space.
  destruct (all_space (invoice_number invoice)),
           (all_space (seller_name invoice)),
           (all_space (buyer_name invoice)), (currency invoice); reflexivity.
Qed.

Lemma _check_currency_nil (invoice : Invoice) : _check_currency invoice = [].
Proof. unfold _check_currency. destruct (currency invoice); reflexivity. Qed.

(** X1. Of the eight required fields, only the three free-text names can
    fail on a typed record: [validate_invoice] reports one
    [required_field_empty] error for each of [invoice_number],
    [seller_name] and [buyer_name] that consists of whitespace only (the
    empty string included), and no other. *)
Theorem required_field_empty_counts_blank_names :
  forall (invoice : Invoice) (s : State),
    count_rule "required_field_empty" (errors (eval (validate_invoice invoice) s))
    = (Nat.b2n (all_space (invoice_number invoice))
       + Nat.b2n (all_space (seller_name invoice))
       + Nat.b2n (all_space (buyer_name invoice)))%nat.
Proof.
  intros invoice s. unfold eval. rewrite validate_invoice_run. cbn [fst errors].
  rewrite count_errors_on. foreign_rules.
  rewrite count_required_field_empty. lia.
Qed.

(** X2. Three rules of the engine are unreachable on a typed record:
    [required_field_missing] (no required field can be absent),
    [invalid_date_format] (both date fields hold dates) and
    [invalid_currency] (the currency is a member of the enumeration). *)
Theorem defensive_rules_unreachable :
  forall (invoice : Invoice) (s : State),
    let errs := errors (eval (validate_invoice invoice) s) in
    has_rule "required_field_missing" errs = false
    /\ has_rule "invalid_date_format" errs = false
    /\ has_rule "invalid_currency" errs = false.
Proof.
  intros invoice s errs. subst errs.
  repeat split; rewrite has_rule_errors, count_errors_on; foreign_rules.
  - rewrite count_required_field_missing. reflexivity.
  - reflexivity.
  - rewrite _check_currency_nil. reflexivity.
Qed.

Ltac findings :=
  repeat match goal with
         | |- Forall _ (if ?c then _ else _) => destruct c
         | |- Forall _ (_ ++ _) => apply Forall_app; split
         | |- Forall _ [] => constructor
         | |- Forall _ (_ :: _) => constructor; [split; reflexivity|]
         end.

Lemma line_item_findings (items : list LineItem) (idx : Z) :
  Forall (finding_of "error" ERROR_RULES) (line_item_errors idx items).
Proof.
  revert idx. induction items as [|item rest IH]; intros idx; simpl.
  - constructor.
  - findings; apply IH.
Qed.

Lemma errors_on_findings (d : date) (seen : gset Key) (invoice : Invoice) :
  Forall (finding_of "error" ERROR_RULES) (errors_on d seen invoice).
Proof.
  unfold errors_on. rewrite _check_currency_nil.
  unfold _check_required_fields, REQUIRED_FIELDS, required_field_errors,
    dates_errors, _check_line_items_sum, _check_gross_calculation,
    _check_due_date, duplicate_errors, _check_non_negative.
  cbn [flat_map getattr String.eqb Ascii.eqb Bool.eqb amount_errors].
  destruct (due_date invoice); findings; apply line_item_findings.
Qed.

Lemma warnings_on_findings (d : date) (invoice : Invoice) :
  Forall (finding_of "warning" WARNING_RULES) (warnings_on d invoice)
  /\ (length (warnings_on d invoice) <= 4)%nat.
Proof.
  unfold warnings_on.
  destruct (negb (truthy (VItems (line_items invoice)))),
           (negb (truthy (of_opt VStr (seller_tax_id invoice)))),
           (negb (truthy (of_opt VDate (due_date invoice)))),
           (365 <? _); split; simpl; try lia; findings.
Qed.

(** X3. Every entry of the error list of a result has severity "error"
    and one of the nine error rules a typed record can trigger; every
    entry of the warning list has severity "warning" and one of the four
    warning rules; and a result carries at most four warnings. *)
Theorem findings_severity_and_rules :
  forall (invoice : Invoice) (s : State),
    let r := eval (validate_invoice invoice) s in
    Forall (finding_of "error" ERROR_RULES) (errors r)
    /\ Forall (finding_of "warning" WARNING_RULES) (warnings r)
    /\ (length (warnings r) <= 4)%nat.
Proof.
  intros invoice s r. subst r. unfold eval. rewrite validate_invoice_run.
  cbn [fst errors warnings]. split; [apply errors_on_findings|].
  apply warnings_on_findings.
Qed.

(** ** Warnings against errors *)

(** X4. The warnings of a result say what the record lacks:
    [no_line_items] exactly when the list of line items is empty,
    [missing_seller_tax_id] exactly when the tax id is absent or the empty
    string, [missing_due_date] exactly when there is no due date.  A
    record warned about missing line items is never charged with a
    line-item sum mismatch, and one warned about a missing due date never
    with a due date before the invoice date. *)
Theorem warnings_mark_skipped_checks :
  forall (invoice : Invoice) (s : State),
    let r := eval (validate_invoice invoice) s in
    has_rule "no_line_items" (warnings r)
      = match line_items invoice with [] => true | _ => false end
    /\ has_rule "missing_seller_tax_id" (warnings r)
       = match seller_tax_id invoice with
         | None | Some "" => true
         | Some _ => false
         end
    /\ has_rule "missing_due_date" (warnings r)
       = match due_date invoice with None => true | Some _ => false end
    /\ (has_rule "no_line_items" (warnings r) = true ->
        has_rule "line_items_sum_mismatch" (errors r) = false)
    /\ (has_rule "missing_due_date" (warnings r) = true ->
        has_rule "due_date_before_invoice_date" (errors r) = false).
Proof.
  intros invoice s r.
  assert (H1 : has_rule "no_line_items" (warnings r)
               = match line_items invoice with [] => true | _ => false end).
  { subst r. unfold eval. rewrite validate_invoice_run. cbn [fst warnings].
    unfold warnings_on.
    destruct (line_items invoice), (seller_tax_id invoice) as [[|c t]|],
             (due_date invoice), (365 <? _); reflexivity. }
  assert (H2 : has_rule "missing_due_date" (warnings r)
               = match due_date invoice with None => true | Some _ => false end).
  { subst r. unfold eval. rewrite validate_invoice_run. cbn [fst warnings].
    unfold warnings_on.
    destruct (line_items invoice), (seller_tax_id invoice) as [[|c t]|],
             (due_date invoice), (365 <? _); reflexivity. }
  split; [exact H1|]. split; [|split; [exact H2|split]].
  - subst r. unfold eval. rewrite validate_invoice_run. cbn [fst warnings].
    unfold warnings_on.
    destruct (line_items invoice), (seller_tax_id invoice) as [[|c t]|],
             (due_date invoice), (365 <? _); reflexivity.
  - rewrite H1. intros Hempty. subst r.
    rewrite has_rule_errors, count_line_items_sum_mismatch.
    destruct (line_items invoice); [reflexivity | discriminate].
  - rewrite H2. intros Hnone. subst r.
    rewrite has_rule_errors, count_errors_on. foreign_rules.
    unfold _check_due_date. destruct (due_date invoice); [discriminate | reflexivity].
Qed.

(** ** The engine state across calls *)

Lemma is_valid_errors_nil {invoice : Invoice} {s : State} :
  is_valid (eval (validate_invoice invoice) s) = true
  <-> errors (eval (validate_invoice invoice) s) = [].
Proof.
  unfold eval. rewrite validate_invoice_run. simpl.
  destruct (errors_on _ _ _) as [|e errs]; simpl; split;
    intros H; try reflexivity; discriminate.
Qed.

(** X5. [validate_invoice] records the identity key of the record and
    forgets none, and it reads the clock twice.  Hence a record validated
    twice on one engine, with no batch reset between, is invalid the
    second time, with exactly one [duplicate_invoice] error. *)
Theorem validate_invoice_remembers_key :
  forall (invoice : Invoice) (s : State),
    let s1 := exec (validate_invoice invoice) s in
    let r2 := eval (validate_invoice invoice) s1 in
    invoice_key invoice ∈ seen_invoices s1
    /\ seen_invoices s ⊆ seen_invoices s1
    /\ reads s1 = (reads s + 2)%nat
    /\ count_rule "duplicate_invoice" (errors r2) = 1%nat
    /\ is_valid r2 = false.
Proof.
  intros invoice s s1 r2.
  assert (Hs1 : s1 = mk_State ({[ invoice_key invoice ]} ∪ seen_invoices s)
                       (clock s) (S (S (reads s)))).
  { subst s1. unfold exec. rewrite validate_invoice_run. reflexivity. }
  assert (Hin : invoice_key invoice ∈ seen_invoices s1).
  { rewrite Hs1. cbn [seen_invoices]. apply elem_of_union. left.
    apply elem_of_singleton. reflexivity. }
  assert (Hdup : count_rule "duplicate_invoice" (errors r2) = 1%nat).
  { subst r2. unfold eval. rewrite validate_invoice_run. cbn [fst errors].
    rewrite count_duplicate_invoice, bool_decide_eq_true_2 by exact Hin.
    reflexivity. }
  split; [exact Hin|]. split; [|split; [|split; [exact Hdup|]]].
  - rewrite Hs1. cbn [seen_invoices]. apply union_subseteq_r.
  - rewrite Hs1. cbn [reads]. lia.
  - subst r2. destruct (is_valid _) eqn:E; [|reflexivity].
    apply (proj1 is_valid_errors_nil) in E. rewrite E in Hdup. discriminate Hdup.
Qed.

(** ** A record in a batch and on its own *)

Lemma without_rule_app (r : string) (a b : list ValidationError) :
  without_rule r (a ++ b) = (without_rule r a ++ without_rule r b)%list.
Proof. unfold without_rule. apply List.filter_app. Qed.

Lemma without_rule_foreign (u : list string) (r : string) (errs : list ValidationError) :
  rules_within u errs ->
  existsb (String.eqb r) u = false ->
  without_rule r errs = errs.
Proof.
  intros Hw Hr. unfold without_rule.
  induction Hw as [|e errs He _ IH]; simpl; [reflexivity|].
  destruct (String.eqb (rule e) r) eqn:E; simpl; [|rewrite IH; reflexivity].
  apply String.eqb_eq in E. subst r. rewrite He in Hr. discriminate.
Qed.

Lemma errors_on_without_duplicates (d : date) (seen : gset Key) (invoice : Invoice) :
  without_rule "duplicate_invoice" (errors_on d seen invoice)
  = errors_on d ∅ invoice.
Proof.
  unfold errors_on. rewrite !without_rule_app.
  rewrite (without_rule_foreign _ _ _ (required_fields_rules _)) by reflexivity.
  rewrite (without_rule_foreign _ _ _ (dates_rules _ _)) by reflexivity.
  rewrite (without_rule_foreign _ _ _ (currency_rules _)) by reflexivity.
  rewrite (without_rule_foreign _ _ _ (line_items_sum_rules _)) by reflexivity.
  rewrite (without_rule_foreign _ _ _ (gross_rules _)) by reflexivity.
  rewrite (without_rule_foreign _ _ _ (due_date_rules _)) by reflexivity.
  rewrite (without_rule_foreign _ _ _ (non_negative_rules _)) by reflexivity.
  do 6 f_equal. unfold duplicate_errors.
  rewrite (bool_decide_eq_false_2 (invoice_key invoice ∈ (∅ : gset Key)))
    by apply not_elem_of_empty.
  destruct (bool_decide _); reflexivity.
Qed.

Lemma state_after_date (d : date) (invoices : list Invoice) (s : State) :
  date_is d s -> date_is d (state_after invoices s).
Proof.
  intros Hd. destruct (run_each_state invoices s) as (_ & Hc & Hr).
  eapply date_is_later; [exact Hc | lia | exact Hd].
Qed.

(** X6. Duplicate detection is the only way the other records of a batch
    bear on a record.  On one calendar day, the result a record gets at
    any position of a batch has the warnings and the identifier it gets
    when validated alone on a fresh engine, and the same errors once the
    [duplicate_invoice] errors are left out; so a record that is valid
    within a batch is valid on its own. *)
Theorem batch_result_is_alone_result_plus_duplicates :
  forall (invoices : list Invoice) (s s0 : State) (d : date)
         (i : nat) (inv : Invoice),
    date_is d s -> date_is d s0 -> seen_invoices s0 = ∅ ->
    invoices !! i = Some inv ->
    exists r : ValidationResult,
      results (eval (validate_batch invoices) s) !! i = Some r
      /\ without_rule "duplicate_invoice" (errors r)
         = errors (eval (validate_invoice inv) s0)
      /\ warnings r = warnings (eval (validate_invoice inv) s0)
      /\ invoice_id r = invoice_id (eval (validate_invoice inv) s0)
      /\ (is_valid r = true -> is_valid (eval (validate_invoice inv) s0) = true).
Proof.
  intros invoices s s0 d i inv Hd Hd0 Hseen0 Hi.
  unfold eval at 1. rewrite validate_batch_run. cbv zeta. cbn [fst results].
  rewrite (run_each_lookup _ _ _ _ Hi). eexists. split; [reflexivity|].
  set (s1 := state_after (take i invoices) (mk_State ∅ (clock s) (reads s))).
  assert (Hd1 : date_is d s1).
  { apply state_after_date. intros n Hn. apply Hd. exact Hn. }
  assert (Herr : without_rule "duplicate_invoice"
                   (errors (eval (validate_invoice inv) s1))
                 = errors (eval (validate_invoice inv) s0)).
  { unfold eval. rewrite !validate_invoice_run. cbn [fst errors].
    rewrite (Hd1 (reads s1)), (Hd0 (reads s0)), Hseen0 by lia.
    apply errors_on_without_duplicates. }
  split; [exact Herr|]. split; [|split].
  - unfold eval. rewrite !validate_invoice_run. cbn [fst warnings].
    rewrite (Hd1 (S (reads s1))), (Hd0 (S (reads s0))) by lia. reflexivity.
  - unfold eval. rewrite !validate_invoice_run. reflexivity.
  - intros Hv. apply is_valid_errors_nil in Hv. apply is_valid_errors_nil.
    rewrite <- Herr, Hv. reflexivity.
Qed.

(** The third record of the sample batch is a duplicate; without that
    error it has the errors it has alone. *)
Lemma batch_result_alone_witness :
  exists r : ValidationResult,
    results (eval (validate_batch Samples.batch_with_duplicates) Samples.noon)
      !! 2%nat = Some r
    /\ without_rule "duplicate_invoice" (errors r)
       = errors (eval (validate_invoice (Samples.clean "INV-1")) Samples.noon).
Proof.
  assert (Hd : date_is Samples.june_1st Samples.noon)
    by (intros n _; reflexivity).
  destruct (batch_result_is_alone_result_plus_duplicates
              Samples.batch_with_duplicates Samples.noon Samples.noon
              Samples.june_1st 2 (Samples.clean "INV-1") Hd Hd eq_refl eq_refl)
    as (r & Hr & He & _).
  exists r. split; [exact Hr | exact He].
Defined.

(** ** Consistency of the summary *)

Lemma run_each_Forall (P : ValidationResult -> Prop) :
  (forall (inv : Invoice) (s : State), P (eval (validate_invoice inv) s)) ->
  forall (invoices : list Invoice) (s : State),
    Forall P (fst (run_each invoices s)).
Proof.
  intros HP. induction invoices as [|inv rest IH]; intros s; [constructor|].
  cbn [run_each]. specialize (HP inv s). unfold eval in HP.
  destruct (validate_invoice inv s) as [r s1].
  specialize (IH s1). destruct (run_each rest s1) as [rs s2].
  constructor; assumption.
Qed.

Lemma all_valid_iff_no_errors (rs : list ValidationResult) :
  Forall (fun r => is_valid r = true <-> errors r = []) rs ->
  length (List.filter is_valid rs) = length rs <-> all_errors rs = [].
Proof.
  unfold all_errors. induction 1 as [|r rs Hr _ IH]; simpl; [tauto|].
  pose proof (List.filter_length_le is_valid rs) as Hle.
  destruct (is_valid r) eqn:E; simpl.
  - rewrite (proj1 Hr eq_refl). simpl. rewrite <- IH. lia.
  - split; [intros H; exfalso; lia|].
    intros H. apply app_eq_nil in H. destruct H as [H _].
    apply Hr in H. discriminate H.
Qed.

Lemma fold_count_error_empty (errs : list ValidationError) :
  fold_left count_error errs ∅ = ∅ <-> errs = [].
Proof.
  split; [|intros ->; reflexivity].
  destruct errs as [|e errs]; [reflexivity|]. intros H.
  pose proof (fold_count_error_lookup (e :: errs) ∅ (rule e)) as Hl.
  rewrite H, lookup_empty in Hl. unfold count_rule in Hl. cbn [List.filter] in Hl.
  rewrite String.eqb_refl in Hl. cbn [length Nat.eqb] in Hl. discriminate Hl.
Qed.

Lemma total_count_count_error (ec : gmap string Z) (e : ValidationError) :
  total_count (count_error ec e) = total_count ec + 1.
Proof.
  unfold total_count, count_error.
  assert (Hcomm : forall (m : gmap string Z) (j1 j2 : string) (z1 z2 y : Z),
             j1 <> j2 -> m !! j1 = Some z1 -> m !! j2 = Some z2 ->
             z1 + (z2 + y) = z2 + (z1 + y)) by (intros; lia).
  destruct (ec !! rule e) as [v|] eqn:E; cbn [default].
  - rewrite <- (insert_delete_eq ec).
    rewrite map_fold_insert_L; [|apply Hcomm|apply lookup_delete_eq].
    rewrite <- (insert_delete_id ec (rule e) v E) at 2.
    rewrite map_fold_insert_L; [|apply Hcomm|apply lookup_delete_eq].
    unfold id. lia.
  - rewrite map_fold_insert_L; [|apply Hcomm|exact E]. unfold id. lia.
Qed.

Lemma total_count_fold (errs : list ValidationError) :
  forall ec : gmap string Z,
    total_count (fold_left count_error errs ec)
    = total_count ec + Z.of_nat (length errs).
Proof.
  induction errs as [|e errs IH]; intros ec; cbn [fold_left length].
  - lia.
  - rewrite IH, total_count_count_error. lia.
Qed.

(** X7. The fields of a batch summary agree with each other and with the
    results: the valid and invalid counts are non-negative and add up to
    the total; no record is invalid exactly when [error_counts] is empty;
    every count in [error_counts] is at least one; and the counts add up
    to the number of errors in all results. *)
Theorem summary_is_consistent :
  forall (invoices : list Invoice) (s : State),
    let out := eval (validate_batch invoices) s in
    let sm := summary out in
    0 <= valid_invoices sm /\ 0 <= invalid_invoices sm
    /\ valid_invoices sm + invalid_invoices sm = total_invoices sm
    /\ (invalid_invoices sm = 0 <-> error_counts sm = ∅)
    /\ (forall (r : string) (n : Z), error_counts sm !! r = Some n -> 1 <= n)
    /\ total_count (error_counts sm)
       = Z.of_nat (length (all_errors (results out))).
Proof.
  intros invoices s out sm. subst sm out. unfold eval.
  rewrite validate_batch_run. cbv zeta.
  cbn [fst results summary error_counts total_invoices valid_invoices
       invalid_invoices].
  set (rs := fst (run_each invoices (mk_State ∅ (clock s) (reads s)))).
  assert (Hlen : length rs = length invoices) by apply run_each_length.
  pose proof (List.filter_length_le is_valid rs) as Hle.
  assert (Hiff : Forall (fun r => is_valid r = true <-> errors r = []) rs).
  { apply run_each_Forall. intros inv s'. apply is_valid_errors_nil. }
  split; [lia|]. split; [lia|]. split; [lia|]. split; [|split].
  - rewrite fold_count_error_empty, <- (all_valid_iff_no_errors rs Hiff). lia.
  - intros r n. rewrite fold_count_error_lookup, lookup_empty.
    destruct (Nat.eqb _ 0) eqn:E; [discriminate|].
    apply Nat.eqb_neq in E. cbn [default]. intros [= <-]. lia.
  - rewrite total_count_fold. unfold total_count. rewrite map_fold_empty. lia.
Qed.

(** ** Duplicates in a batch *)

Lemma size_add_key (k : Key) (seen : gset Key) :
  size ({[ k ]} ∪ seen)
  = ((if bool_decide (k ∈ seen) then 0 else 1) + size seen)%nat.
Proof.
  destruct (bool_decide (k ∈ seen)) eqn:E.
  - apply bool_decide_eq_true_1 in E.
    rewrite (subseteq_union_1_L {[ k ]} seen); [reflexivity|].
    apply singleton_subseteq_l. exact E.
  - apply bool_decide_eq_false_1 in E.
    rewrite size_union; [rewrite size_singleton; reflexivity|].
    apply disjoint_singleton_l. exact E.
Qed.

Lemma run_each_duplicates (invoices : list Invoice) :
  forall s : State,
    (count_rule "duplicate_invoice" (all_errors (fst (run_each invoices s)))
     + size (seen_invoices (state_after invoices s))
     = length invoices + size (seen_invoices s))%nat.
Proof.
  unfold state_after, all_errors.
  induction invoices as [|inv rest IH]; intros s; [reflexivity|].
  cbn [run_each]. rewrite validate_invoice_run. cbv zeta.
  match goal with
  | |- context [run_each rest ?s1] =>
      specialize (IH s1); destruct (run_each rest s1) as [rs s2]
  end.
  cbn [fst snd map concat errors seen_invoices length] in *.
  rewrite count_rule_app, count_duplicate_invoice.
  rewrite size_add_key in IH.
  destruct (bool_decide _); lia.
Qed.

(** X8. The number of [duplicate_invoice] errors of a batch is the number
    of records minus the number of distinct identity keys among them,
    whatever the order of the records; [error_counts] reports that number
    (no entry when it is zero). *)
Theorem duplicate_errors_count_repeated_keys :
  forall (invoices : list Invoice) (s : State),
    let out := eval (validate_batch invoices) s in
    (size (keys_of invoices) <= length invoices)%nat
    /\ count_rule "duplicate_invoice" (all_errors (results out))
       = (length invoices - size (keys_of invoices))%nat
    /\ default 0 (error_counts (summary out) !! "duplicate_invoice")
       = Z.of_nat (length invoices) - Z.of_nat (size (keys_of invoices)).
Proof.
  intros invoices s out. subst out. unfold eval.
  rewrite validate_batch_run. cbv zeta.
  cbn [fst results summary error_counts].
  pose proof (run_each_duplicates invoices (mk_State ∅ (clock s) (reads s))) as H.
  destruct (run_each_state invoices (mk_State ∅ (clock s) (reads s)))
    as (Hseen & _ & _).
  rewrite Hseen in H. cbn [seen_invoices] in H.
  rewrite (right_id_L ∅ (∪)), size_empty in H. fold (keys_of invoices) in H.
  rewrite fold_count_error_lookup, lookup_empty.
  set (c := count_rule _ _) in *. set (k := size _) in *.
  set (n := length invoices) in *. clearbody c k n.
  split; [lia|]. split; [lia|].
  destruct (Nat.eqb c 0) eqn:E; cbn [default]; unfold id.
  - apply Nat.eqb_eq in E. lia.
  - lia.
Qed.

(** ** Batches and the engine *)

Lemma run_each_app (a b : list Invoice) :
  forall s : State,
    fst (run_each (a ++ b) s)
    = (fst (run_each a s) ++ fst (run_each b (state_after a s)))%list.
Proof.
  unfold state_after.
  induction a as [|inv rest IH]; intros s; [reflexivity|].
  cbn [app run_each]. destruct (validate_invoice inv s) as [r s1].
  specialize (IH s1).
  destruct (run_each (rest ++ b) s1) as [rs s2].
  destruct (run_each rest s1) as [rs' s2'].
  cbn [fst snd] in *. rewrite IH. reflexivity.
Qed.

(** X9. Appending records to a batch leaves the results of the records
    before them unchanged: run from the same engine and clock state, the
    batch [a ++ b] gets the results of the batch [a] followed by one
    result per record of [b]. *)
Theorem batch_results_extend :
  forall (a b : list Invoice) (s : State),
    exists tail : list ValidationResult,
      results (eval (validate_batch (a ++ b)) s)
      = (results (eval (validate_batch a) s) ++ tail)%list
      /\ length tail = length b.
Proof.
  intros a b s. unfold eval. rewrite !validate_batch_run. cbv zeta.
  cbn [fst results]. rewrite run_each_app.
  eexists. split; [reflexivity|]. apply run_each_length.
Qed.

(** X10. A batch starts from a clean slate and leaves its own keys
    behind: the output and the final state of [validate_batch] do not
    depend on the keys the engine had seen before the call, and
    afterwards the seen keys are exactly the identity keys of the batch.
    The call reads the clock twice per record and once for the
    timestamp. *)
Theorem batch_resets_seen_keys :
  forall (invoices : list Invoice) (s : State),
    (forall seen0 : gset Key,
        validate_batch invoices (mk_State seen0 (clock s) (reads s))
        = validate_batch invoices s)
    /\ seen_invoices (exec (validate_batch invoices) s) = keys_of invoices
    /\ clock (exec (validate_batch invoices) s) = clock s
    /\ reads (exec (validate_batch invoices) s)
       = (reads s + 2 * length invoices + 1)%nat.
Proof.
  intros invoices s. split.
  - intros seen0. rewrite !validate_batch_run. reflexivity.
  - unfold exec. rewrite validate_batch_run. cbv zeta.
    cbn [snd seen_invoices clock reads].
    destruct (run_each_state invoices (mk_State ∅ (clock s) (reads s)))
      as (Hseen & Hclock & Hreads).
    unfold state_after in *. rewrite Hseen, Hclock, Hreads.
    cbn [seen_invoices clock reads]. rewrite (right_id_L ∅ (∪)).
    repeat split. lia.
Qed.


(** ** Construction, field by field *)

(** X11. The guard on the totals rejects exactly minus infinity and the
    negative finite numbers; NaN, both zeros and plus infinity pass.
    When construction fails, the error names exactly the negative fields
    among [net_total], [tax_amount] and [gross_total], in that order. *)
Theorem construction_guard_by_cases :
  (forall v : float,
      non_negative_amounts v
      = match v with
        | S754_infinity true | S754_finite true _ _ =>
            inl "Amounts cannot be negative"
        | _ => inr v
        end)
  /\ (forall (fields : Invoice) (errs : ConstructionError),
         Invoice_new fields = inl errs ->
         map fst errs
         = List.filter
             (fun name =>
                match getattr fields name with
                | VFloat v => PyFloat.lt v (PyFloat.of_Z 0)
                | _ => false
                end)
             [ "net_total"; "tax_amount"; "gross_total" ]).
Proof.
  split.
  - intros v. unfold non_negative_amounts.
    destruct v as [sv|sv| |sv mv ev]; try (destruct sv); reflexivity.
  - intros fields errs.
    unfold Invoice_new, run_field_validator, non_negative_amounts.
    cbn [List.filter getattr String.eqb Ascii.eqb Bool.eqb].
    destruct (PyFloat.lt (net_total fields) _),
             (PyFloat.lt (tax_amount fields) _),
             (PyFloat.lt (gross_total fields) _); simpl;
      intros H; try discriminate H; injection H as <-; reflexivity.
Qed.

(** A record with two negative totals is rejected for those two. *)
Lemma construction_guard_witness :
  map fst [ ("net_total", "Amounts cannot be negative");
            ("gross_total", "Amounts cannot be negative") ]
  = List.filter
      (fun name =>
         match getattr (Samples.invoice "INV-9" (PyFloat.of_Z (-1))
                          (PyFloat.of_Z 0) (PyFloat.of_Z (-1)) []) name with
         | VFloat v => PyFloat.lt v (PyFloat.of_Z 0)
         | _ => false
         end)
      [ "net_total"; "tax_amount"; "gross_total" ].
Proof.
  exact (proj2 construction_guard_by_cases
           (Samples.invoice "INV-9" (PyFloat.of_Z (-1)) (PyFloat.of_Z 0)
              (PyFloat.of_Z (-1)) [])
           _ eq_refl).
Defined.

(** ** Calendar order *)

Lemma is_leap_cases (y : Z) :
  PyDate.is_leap y = true
  /\ (y mod 4 = 0 /\ (y mod 100 <> 0 \/ y mod 400 = 0))
  \/ PyDate.is_leap y = false
     /\ (y mod 4 <> 0 \/ (y mod 100 = 0 /\ y mod 400 <> 0)).
Proof.
  unfold PyDate.is_leap.
  destruct (Z.eqb_spec (y mod 4) 0), (Z.eqb_spec (y mod 100) 0),
           (Z.eqb_spec (y mod 400) 0); simpl; tauto.
Qed.

Lemma days_before_year_succ (y : Z) :
  PyDate.days_before_year (y + 1)
  = PyDate.days_before_year y + 365 + (if PyDate.is_leap y then 1 else 0).
Proof.
  unfold PyDate.days_before_year. cbv zeta.
  replace (y + 1 - 1) with y by lia.
  destruct (is_leap_cases y) as [[-> H]|[-> H]];
    Z.div_mod_to_equations; lia.
Qed.

Lemma days_before_year_mono (y1 y2 : Z) :
  y1 <= y2 -> PyDate.days_before_year y1 <= PyDate.days_before_year y2.
Proof.
  intros H. unfold PyDate.days_before_year. cbv zeta.
  Z.div_mod_to_equations. lia.
Qed.

Lemma month_cases (m : Z) :
  1 <= m <= 12 ->
  m = 1 \/ m = 2 \/ m = 3 \/ m = 4 \/ m = 5 \/ m = 6
  \/ m = 7 \/ m = 8 \/ m = 9 \/ m = 10 \/ m = 11 \/ m = 12.
Proof. lia. Qed.

Lemma valid_ymd_bounds (y m d : Z) :
  Calendar.valid_ymd y m d = true ->
  1 <= y <= 9999 /\ 1 <= m <= 12 /\ 1 <= d <= Calendar.days_in_month y m.
Proof.
  unfold Calendar.valid_ymd, Calendar.MINYEAR, Calendar.MAXYEAR.
  rewrite !andb_true_iff, !Z.leb_le. tauto.
Qed.

Ltac each_month m H :=
  destruct (month_cases m H)
    as [->|[->|[->|[->|[->|[->|[->|[->|[->|[->|[->| ->]]]]]]]]]]].

Lemma day_of_year_bounds (y m d : Z) :
  Calendar.valid_ymd y m d = true ->
  1 <= PyDate.days_before_month y m + d
       <= 365 + (if PyDate.is_leap y then 1 else 0).
Proof.
  intros H. apply valid_ymd_bounds in H. destruct H as (_ & Hm & Hd).
  revert Hd. unfold Calendar.days_in_month, PyDate.days_before_month.
  each_month m Hm; destruct (PyDate.is_leap y); simpl; lia.
Qed.

Lemma day_of_year_month_order (y m1 d1 m2 d2 : Z) :
  Calendar.valid_ymd y m1 d1 = true ->
  Calendar.valid_ymd y m2 d2 = true ->
  m1 < m2 ->
  PyDate.days_before_month y m1 + d1 < PyDate.days_before_month y m2 + d2.
Proof.
  intros H1 H2. apply valid_ymd_bounds in H1, H2.
  destruct H1 as (_ & Hm1 & Hd1). destruct H2 as (_ & Hm2 & Hd2).
  revert Hd1 Hd2. unfold Calendar.days_in_month, PyDate.days_before_month.
  each_month m1 Hm1; each_month m2 Hm2; intros Hd1 Hd2 Hlt; try lia;
    destruct (PyDate.is_leap y); simpl in *; lia.
Qed.

(** The comparison of dates agrees with the order of their ordinals. *)
Lemma date_lt_ordinal (a b : date) :
  Calendar.valid a = true -> Calendar.valid b = true ->
  PyDate.lt a b = (PyDate.toordinal a <? PyDate.toordinal b).
Proof.
  destruct a as [y1 m1 d1], b as [y2 m2 d2].
  unfold Calendar.valid, PyDate.lt, PyDate.toordinal. cbn [PyDate.year PyDate.month PyDate.day].
  intros Ha Hb.
  pose proof (day_of_year_bounds _ _ _ Ha) as Ba.
  pose proof (day_of_year_bounds _ _ _ Hb) as Bb.
  pose proof (days_before_year_succ y1) as S1.
  pose proof (days_before_year_succ y2) as S2.
  destruct (Z.ltb_spec y1 y2) as [Hy|Hy]; cbn [orb].
  - pose proof (days_before_year_mono (y1 + 1) y2 ltac:(lia)).
    symmetry. apply Z.ltb_lt. lia.
  - destruct (Z.eqb_spec y1 y2) as [->|Hne]; cbn [andb].
    + destruct (Z.ltb_spec m1 m2) as [Hm|Hm]; cbn [orb].
      * pose proof (day_of_year_month_order _ _ _ _ _ Ha Hb Hm).
        symmetry. apply Z.ltb_lt. lia.
      * destruct (Z.eqb_spec m1 m2) as [->|Hmne]; cbn [andb].
        -- destruct (Z.ltb_spec d1 d2); symmetry;
             [apply Z.ltb_lt | apply Z.ltb_ge]; lia.
        -- assert (Hm' : m2 < m1) by lia.
           pose proof (day_of_year_month_order _ _ _ _ _ Hb Ha Hm').
           symmetry. apply Z.ltb_ge. lia.
    + pose proof (days_before_year_mono (y2 + 1) y1 ltac:(lia)).
      symmetry. apply Z.ltb_ge. lia.
Qed.

(** X12. For calendar dates, [due_date_before_invoice_date] is reported
    exactly when the due date lies at least one day before the invoice
    date, counted in days; a due date on the invoice date itself
    passes. *)
Theorem due_date_error_counts_days :
  forall (invoice : Invoice) (s : State) (due : date),
    due_date invoice = Some due ->
    Calendar.valid due = true ->
    Calendar.valid (invoice_date invoice) = true ->
    has_rule "due_date_before_invoice_date"
      (errors (eval (validate_invoice invoice) s))
    = (1 <=? PyDate.days_between (invoice_date invoice) due).
Proof.
  intros invoice s due Hdue Hv1 Hv2.
  rewrite has_rule_errors, count_errors_on. foreign_rules.
  unfold _check_due_date. rewrite Hdue. cbn [truthy andb].
  rewrite (date_lt_ordinal _ _ Hv1 Hv2). unfold PyDate.days_between.
  destruct (Z.ltb_spec (PyDate.toordinal due) (PyDate.toordinal (invoice_date invoice)));
    destruct (Z.leb_spec 1 (PyDate.toordinal (invoice_date invoice) - PyDate.toordinal due));
    try lia; reflexivity.
Qed.

(** The old sample invoice is due thirty days after its date. *)
Lemma due_date_error_witness :
  has_rule "due_date_before_invoice_date"
    (errors (eval (validate_invoice Samples.old) Samples.noon))
  = (1 <=? PyDate.days_between (invoice_date Samples.old) (PyDate.mk_date 2023 7 1)).
Proof.
  exact (due_date_error_counts_days Samples.old Samples.noon
           (PyDate.mk_date 2023 7 1) eq_refl eq_refl eq_refl).
Defined.


(* ===================================================================== *)
(** * Properties of the extractor *)
(* ===================================================================== *)

Import PDFInvoiceExtractor Shapes.

(** ** Number texts *)

Lemma contains_app (c : ascii) (a b : string) :
  contains c (a +:+ b) = contains c a || contains c b.
Proof.
  induction a as [|x a IH]; simpl; [reflexivity|].
  rewrite IH, orb_assoc. reflexivity.
Qed.

Lemma append_assoc (a b c : string) : (a +:+ b) +:+ c = a +:+ (b +:+ c).
Proof.
  induction a as [|x a IH]; [reflexivity|].
  change (String x ((a +:+ b) +:+ c) = String x (a +:+ (b +:+ c))).
  rewrite IH. reflexivity.
Qed.

Lemma replace_app (old : ascii) (new a b : string) :
  replace old new (a +:+ b) = replace old new a +:+ replace old new b.
Proof.
  induction a as [|x a IH]; simpl; [reflexivity|].
  rewrite IH. destruct (Ascii.eqb x old); simpl; [|reflexivity].
  symmetry. apply append_assoc.
Qed.

Lemma replace_absent (old : ascii) (new s : string) :
  contains old s = false -> replace old new s = s.
Proof.
  induction s as [|x s IH]; simpl; [reflexivity|].
  destruct (Ascii.eqb x old); simpl; [discriminate|].
  intros H. rewrite IH by exact H. reflexivity.
Qed.

Lemma contains_replace (c old : ascii) (new s : string) :
  contains c new = false ->
  contains c (replace old new s)
  = contains c s && negb (Ascii.eqb c old) || false.
Proof.
  intros Hnew. rewrite orb_false_r.
  induction s as [|x s IH]; simpl; [reflexivity|].
  destruct (Ascii.eqb x old) eqn:E.
  - rewrite contains_app, Hnew, IH. simpl.
    apply Ascii.eqb_eq in E. subst x.
    destruct (Ascii.eqb old c) eqn:E2; simpl.
    + apply Ascii.eqb_eq in E2. subst c. rewrite Ascii.eqb_refl. simpl.
      rewrite andb_false_r. reflexivity.
    + reflexivity.
  - simpl. rewrite IH.
    destruct (Ascii.eqb x c) eqn:E2; simpl; [|reflexivity].
    apply Ascii.eqb_eq in E2. subst x. rewrite E. reflexivity.
Qed.

Lemma find_from_absent (c : ascii) (s : string) (i : Z) :
  contains c s = false -> find_from i c s = -1.
Proof.
  revert i. induction s as [|x s IH]; intros i; simpl; [reflexivity|].
  destruct (Ascii.eqb x c); simpl; [discriminate|]. apply IH.
Qed.

Lemma find_from_bounds (c : ascii) (s : string) (i : Z) :
  contains c s = true ->
  i <= find_from i c s < i + Z.of_nat (String.length s).
Proof.
  revert i. induction s as [|x s IH]; intros i; simpl; [discriminate|].
  destruct (Ascii.eqb x c); simpl.
  - intros _. lia.
  - intros H. specialize (IH (i + 1) H). lia.
Qed.

Lemma find_from_app_absent (c : ascii) (a b : string) (i : Z) :
  contains c a = false ->
  find_from i c (a +:+ b) = find_from (i + Z.of_nat (String.length a)) c b.
Proof.
  revert i. induction a as [|x a IH]; intros i; simpl.
  - intros _. f_equal. lia.
  - destruct (Ascii.eqb x c); simpl; [discriminate|].
    intros H. rewrite IH by exact H. f_equal. lia.
Qed.

Lemma find_from_app_present (c : ascii) (a b : string) (i : Z) :
  contains c a = true -> find_from i c (a +:+ b) = find_from i c a.
Proof.
  revert i. induction a as [|x a IH]; intros i; simpl; [discriminate|].
  destruct (Ascii.eqb x c); simpl; [reflexivity|]. apply IH.
Qed.

Lemma plain_parts (s : string) :
  plain s = true ->
  contains " " s = false /\ contains "," s = false /\ contains "." s = false.
Proof.
  unfold plain. rewrite !andb_true_iff, !negb_true_iff. tauto.
Qed.

Lemma number_text_no_dot (s : string) :
  contains " " s = false -> contains "." s = false ->
  number_text s = replace "," "" s.
Proof.
  intros Hsp Hdot. unfold number_text.
  rewrite (replace_absent " " "" s Hsp), Hdot, andb_false_r. reflexivity.
Qed.

Lemma number_text_english (t c : string) :
  contains " " t = false -> contains "." t = false -> plain c = true ->
  number_text (t +:+ "." +:+ c) = replace "," "" t +:+ "." +:+ c.
Proof.
  intros Hsp Hdot Hc. apply plain_parts in Hc. destruct Hc as (Hc1 & Hc2 & Hc3).
  unfold number_text.
  rewrite (replace_absent " " "" (t +:+ "." +:+ c))
    by (rewrite !contains_app, Hsp, Hc1; reflexivity).
  assert (Hcond : contains "," (t +:+ "." +:+ c)
                  && contains "." (t +:+ "." +:+ c)
                  && (find "." (t +:+ "." +:+ c) <? find "," (t +:+ "." +:+ c))
                  = false).
  { destruct (contains "," t) eqn:Hcomma.
    - apply andb_false_iff. right. apply Z.ltb_ge. unfold find.
      rewrite (find_from_app_present "," t _ 0 Hcomma).
      rewrite (find_from_app_absent "." t _ 0 Hdot).
      pose proof (find_from_bounds "," t 0 Hcomma). simpl. lia.
    - rewrite !contains_app, Hcomma, Hc2. reflexivity. }
  rewrite Hcond, !replace_app. simpl.
  rewrite (replace_absent "," "" c Hc2). reflexivity.
Qed.

Lemma number_text_german (t c : string) :
  contains " " t = false -> contains "," t = false -> contains "." t = true ->
  plain c = true ->
  number_text (t +:+ "," +:+ c) = replace "." "" t +:+ "." +:+ c.
Proof.
  intros Hsp Hcomma Hdot Hc. apply plain_parts in Hc.
  destruct Hc as (Hc1 & Hc2 & Hc3).
  unfold number_text.
  rewrite (replace_absent " " "" (t +:+ "," +:+ c))
    by (rewrite !contains_app, Hsp, Hc1; reflexivity).
  assert (Hcond : contains "," (t +:+ "," +:+ c)
                  && contains "." (t +:+ "," +:+ c)
                  && (find "." (t +:+ "," +:+ c) <? find "," (t +:+ "," +:+ c))
                  = true).
  { rewrite !contains_app, Hdot. simpl. rewrite orb_true_r. simpl.
    apply Z.ltb_lt. unfold find.
    rewrite (find_from_app_present "." t _ 0 Hdot).
    rewrite (find_from_app_absent "," t _ 0 Hcomma).
    pose proof (find_from_bounds "." t 0 Hdot). simpl. lia. }
  rewrite Hcond, !replace_app. simpl.
  rewrite (replace_absent "." "" c Hc3).
  assert (Hclean : contains "," (replace "." "" t) = false).
  { rewrite contains_replace by reflexivity. rewrite Hcomma. reflexivity. }
  rewrite !(replace_absent "," _ (replace "." "" t) Hclean).
  rewrite !(replace_absent "," _ c Hc2). reflexivity.
Qed.

(** X13. [_parse_number] reads both thousands conventions: in a text
    without spaces, dots before a single decimal comma are dropped and
    the comma becomes the decimal point ("1.234,56" is read as
    "1234.56"); commas before a single decimal point are dropped
    ("1,234.56" is read as "1234.56").  A text with commas but no dot
    loses its commas, so a decimal comma alone is not understood:
    "12,50" is read as "1250". *)
Theorem parse_number_thousands_conventions :
  forall (float_of_str : string -> option float) (t c : string),
    contains " " t = false -> plain c = true ->
    (contains "," t = false -> contains "." t = true ->
     _parse_number float_of_str (t +:+ "," +:+ c)
     = default (PyFloat.of_Z 0) (float_of_str (replace "." "" t +:+ "." +:+ c)))
    /\ (contains "." t = false ->
        _parse_number float_of_str (t +:+ "." +:+ c)
        = default (PyFloat.of_Z 0) (float_of_str (replace "," "" t +:+ "." +:+ c)))
    /\ (contains "." t = false ->
        _parse_number float_of_str (t +:+ "," +:+ c)
        = default (PyFloat.of_Z 0) (float_of_str (replace "," "" t +:+ c))).
Proof.
  intros f t c Hsp Hc. unfold _parse_number. split; [|split].
  - intros Hcomma Hdot. rewrite (number_text_german t c Hsp Hcomma Hdot Hc).
    destruct (f _); reflexivity.
  - intros Hdot. rewrite (number_text_english t c Hsp Hdot Hc).
    destruct (f _); reflexivity.
  - intros Hdot. destruct (plain_parts c Hc) as (Hc1 & Hc2 & Hc3).
    rewrite number_text_no_dot
      by (rewrite !contains_app; simpl; rewrite ?Hsp, ?Hdot, ?Hc1, ?Hc3; reflexivity).
    rewrite !replace_app. simpl. rewrite (replace_absent "," "" c Hc2).
    destruct (f _); reflexivity.
Qed.

(** The three texts of the statement, with a parser that knows them. *)
Lemma parse_number_witness :
  _parse_number known_numbers "1.234,56" = PyFloat.decimal 123456 100
  /\ _parse_number known_numbers "1,234.56" = PyFloat.decimal 123456 100
  /\ _parse_number known_numbers "12,50" = PyFloat.of_Z 1250.
Proof.
  destruct (parse_number_thousands_conventions known_numbers "1.234" "56"
              eq_refl eq_refl) as (Hg & _ & _).
  destruct (parse_number_thousands_conventions known_numbers "1,234" "56"
              eq_refl eq_refl) as (_ & He & _).
  destruct (parse_number_thousands_conventions known_numbers "12" "50"
              eq_refl eq_refl) as (_ & _ & Hc).
  split; [exact (Hg eq_refl eq_refl)|]. split; [exact (He eq_refl) | exact (Hc eq_refl)].
Defined.

(** X14. Whatever the input, the text [_parse_number] hands to [float]
    holds no space and no comma, and cleaning is idempotent: a text that
    has been cleaned parses to the same number as the original.  When
    [float] rejects the cleaned text the result is 0.0. *)
Theorem parse_number_cleans_text :
  forall (float_of_str : string -> option float) (s : string),
    contains " " (number_text s) = false
    /\ contains "," (number_text s) = false
    /\ number_text (number_text s) = number_text s
    /\ _parse_number float_of_str (number_text s) = _parse_number float_of_str s
    /\ (float_of_str (number_text s) = None ->
        _parse_number float_of_str s = PyFloat.of_Z 0).
Proof.
  intros f s.
  assert (Hsp : contains " " (number_text s) = false).
  { unfold number_text.
    destruct (_ && _ && _);
      rewrite !contains_replace by reflexivity;
      destruct (contains " " s); reflexivity. }
  assert (Hcomma : contains "," (number_text s) = false).
  { unfold number_text. rewrite contains_replace by reflexivity. simpl.
    rewrite andb_false_r. reflexivity. }
  assert (Hidem : number_text (number_text s) = number_text s).
  { set (x := number_text s) in *. unfold number_text.
    rewrite (replace_absent " " "" x Hsp), Hcomma. simpl.
    apply replace_absent. exact Hcomma. }
  split; [exact Hsp|]. split; [exact Hcomma|]. split; [exact Hidem|]. split.
  - unfold _parse_number. rewrite Hidem. reflexivity.
  - intros Hnone. unfold _parse_number. rewrite Hnone. reflexivity.
Qed.

(** ** Reading dates *)

Lemma digit_props (n : Z) :
  is_digit (PyDate.digit n) = true
  /\ digit_value (PyDate.digit n) = n mod 10.
Proof.
  unfold PyDate.digit.
  assert (H : 0 <= n mod 10 < 10) by (apply Z.mod_pos_bound; lia).
  set (k := n mod 10) in *. clearbody k.
  assert (Hk : k = 0 \/ k = 1 \/ k = 2 \/ k = 3 \/ k = 4
               \/ k = 5 \/ k = 6 \/ k = 7 \/ k = 8 \/ k = 9) by lia.
  destruct Hk as [->|[->|[->|[->|[->|[->|[->|[->|[->| ->]]]]]]]]];
    split; reflexivity.
Qed.

Lemma digit_is_no_separator (c : ascii) :
  is_digit c = true ->
  Ascii.eqb "." c = false /\ Ascii.eqb "-" c = false /\ Ascii.eqb "/" c = false.
Proof.
  destruct c as [b0 b1 b2 b3 b4 b5 b6 b7].
  destruct b0, b1, b2, b3, b4, b5, b6, b7; intros H;
    try discriminate H; repeat split; reflexivity.
Qed.

Lemma match_format_head (d : directive) (fmt : list directive) (g : groups)
    (s t r : string) (more : list (string * string)) (x : groups * string) :
  alternatives (regex_of d) s = (t, r) :: more ->
  (exists tl, match_format fmt (bind_group d t g) r = x :: tl) ->
  exists tl, match_format (d :: fmt) g s = x :: tl.
Proof.
  intros Ha [tl Hm]. cbn [match_format]. rewrite Ha. cbn [flat_map fst snd].
  rewrite Hm. eexists. reflexivity.
Qed.

Lemma literal_head (c : ascii) (fmt : list directive) (g : groups)
    (r : string) (x : groups * string) :
  (exists tl, match_format fmt g r = x :: tl) ->
  exists tl, match_format (Literal c :: fmt) g (String c r) = x :: tl.
Proof.
  intros H. eapply match_format_head; [|exact H].
  unfold alternatives. cbn [regex_of flat_map classes].
  rewrite Ascii.eqb_refl. reflexivity.
Qed.

Lemma append_cons (c : ascii) (a b : string) :
  String c a +:+ b = String c (a +:+ b).
Proof. reflexivity. Qed.

Lemma append_empty (b : string) : EmptyString +:+ b = b.
Proof. reflexivity. Qed.

Lemma year_text (y : Z) (r : string) :
  0 <= y <= 9999 ->
  alternatives (regex_of Dir_Y) (PyDate.pad4 y +:+ r) = [(PyDate.pad4 y, r)]
  /\ int_of (PyDate.pad4 y) = y.
Proof.
  intros Hy. unfold PyDate.pad4, PyDate.pad2, alternatives, int_of.
  destruct (digit_props (y / 1000)) as [D1 V1].
  destruct (digit_props (y / 100)) as [D2 V2].
  destruct (digit_props (y / 10)) as [D3 V3].
  destruct (digit_props y) as [D4 V4].
  rewrite !append_cons, append_empty.
  cbn [regex_of flat_map classes int_from].
  rewrite D1, D2, D3, D4, V1, V2, V3, V4. split; [reflexivity|].
  Z.div_mod_to_equations. lia.
Qed.

Lemma day_cases (d : Z) :
  1 <= d <= 31 ->
  d = 1 \/ d = 2 \/ d = 3 \/ d = 4 \/ d = 5 \/ d = 6 \/ d = 7 \/ d = 8
  \/ d = 9 \/ d = 10 \/ d = 11 \/ d = 12 \/ d = 13 \/ d = 14 \/ d = 15
  \/ d = 16 \/ d = 17 \/ d = 18 \/ d = 19 \/ d = 20 \/ d = 21 \/ d = 22
  \/ d = 23 \/ d = 24 \/ d = 25 \/ d = 26 \/ d = 27 \/ d = 28 \/ d = 29
  \/ d = 30 \/ d = 31.
Proof. lia. Qed.

Lemma month_text (m : Z) (r : string) :
  1 <= m <= 12 ->
  (exists more,
      alternatives (regex_of Dir_m) (PyDate.pad2 m +:+ r)
      = (PyDate.pad2 m, r) :: more)
  /\ int_of (PyDate.pad2 m) = m.
Proof.
  intros Hm. each_month m Hm; split; try reflexivity; eexists; reflexivity.
Qed.

Lemma day_text (d : Z) (r : string) :
  1 <= d <= 31 ->
  (exists more,
      alternatives (regex_of Dir_d) (PyDate.pad2 d +:+ r)
      = (PyDate.pad2 d, r) :: more)
  /\ int_of (PyDate.pad2 d) = d.
Proof.
  intros Hd.
  destruct (day_cases d Hd)
    as [->|[->|[->|[->|[->|[->|[->|[->|[->|[->|[->|[->|[->|[->|[->|[->|
       [->|[->|[->|[->|[->|[->|[->|[->|[->|[->|[->|[->|[->|[->| ->
       ]]]]]]]]]]]]]]]]]]]]]]]]]]]]]];
    split; try reflexivity; eexists; reflexivity.
Qed.

Lemma pad2_chars (n : Z) :
  PyDate.pad2 n
  = String (PyDate.digit (n / 10)) (String (PyDate.digit n) EmptyString).
Proof. reflexivity. Qed.

(** [%d] followed by a literal finds no match in a text whose second and
    third characters are not that literal. *)
Lemma day_then_literal_fails (sep a b c : ascii) (r : string)
    (fmt : list directive) (g : groups) :
  Ascii.eqb sep b = false -> Ascii.eqb sep c = false ->
  match_format (Dir_d :: Literal sep :: fmt) g (String a (String b (String c r)))
  = [].
Proof.
  intros Hb Hc. unfold alternatives.
  cbn [match_format alternatives regex_of flat_map classes].
  unfold alternatives. cbn [regex_of flat_map classes].
  destruct (Ascii.eqb "3" a), (between "0" "1" b), (between "1" "2" a),
           (is_digit b), (Ascii.eqb "0" a), (between "1" "9" b),
           (between "1" "9" a), (Ascii.eqb " " a);
    cbn [flat_map fst snd app classes]; rewrite ?Hb, ?Hc; reflexivity.
Qed.

(** [%Y] finds no match in a text whose third character is no digit. *)
Lemma year_fails (a b c : ascii) (r : string) (fmt : list directive) (g : groups) :
  is_digit c = false ->
  match_format (Dir_Y :: fmt) g (String a (String b (String c r))) = [].
Proof.
  intros Hc. unfold alternatives.
  cbn [match_format alternatives regex_of flat_map classes].
  unfold alternatives. cbn [regex_of flat_map classes].
  destruct (is_digit a), (is_digit b); rewrite ?Hc; reflexivity.
Qed.

Lemma append_empty_r (s : string) : s +:+ EmptyString = s.
Proof.
  induction s as [|c s IH]; [reflexivity|].
  rewrite append_cons, IH. reflexivity.
Qed.

Lemma strptime_of_head (s fmt : string) (g : groups) :
  (exists tl,
      match_format (directives_of fmt) (mk_groups None None None) s
      = (g, EmptyString) :: tl) ->
  strptime s fmt
  = if Calendar.valid_ymd (default 1900 (group_Y g)) (default 1 (group_m g))
         (default 1 (group_d g))
    then Some (PyDate.mk_date (default 1900 (group_Y g)) (default 1 (group_m g))
                 (default 1 (group_d g)))
    else None.
Proof. intros [tl H]. unfold strptime. rewrite H. reflexivity. Qed.

Lemma strptime_of_nil (s fmt : string) :
  match_format (directives_of fmt) (mk_groups None None None) s = [] ->
  strptime s fmt = None.
Proof. intros H. unfold strptime. rewrite H. reflexivity. Qed.

Lemma iso_matches (y m d : Z) (g : groups) :
  0 <= y <= 9999 -> 1 <= m <= 12 -> 1 <= d <= 31 ->
  exists tl,
    match_format [Dir_Y; Literal "-"; Dir_m; Literal "-"; Dir_d] g
      (PyDate.pad4 y +:+ String "-" (PyDate.pad2 m +:+ String "-" (PyDate.pad2 d +:+ "")))
    = (mk_groups (Some y) (Some m) (Some d), EmptyString) :: tl.
Proof.
  intros Hy Hm Hd.
  destruct (year_text y (String "-" (PyDate.pad2 m +:+ String "-" (PyDate.pad2 d +:+ ""))) Hy)
    as [Ha Hi].
  eapply match_format_head; [exact Ha|]. cbn [bind_group]. rewrite Hi.
  apply literal_head.
  destruct (month_text m (String "-" (PyDate.pad2 d +:+ "")) Hm) as [[more Hb] Hj].
  eapply match_format_head; [exact Hb|]. cbn [bind_group group_Y group_d]. rewrite Hj.
  apply literal_head.
  destruct (day_text d "" Hd) as [[more' Hc] Hk].
  eapply match_format_head; [exact Hc|]. cbn [bind_group group_Y group_m]. rewrite Hk.
  eexists. reflexivity.
Qed.

Lemma day_first_matches (sep : ascii) (y m d : Z) (g : groups) :
  0 <= y <= 9999 -> 1 <= m <= 12 -> 1 <= d <= 31 ->
  exists tl,
    match_format [Dir_d; Literal sep; Dir_m; Literal sep; Dir_Y] g
      (PyDate.pad2 d +:+ String sep (PyDate.pad2 m +:+ String sep (PyDate.pad4 y +:+ "")))
    = (mk_groups (Some y) (Some m) (Some d), EmptyString) :: tl.
Proof.
  intros Hy Hm Hd.
  destruct (day_text d (String sep (PyDate.pad2 m +:+ String sep (PyDate.pad4 y +:+ ""))) Hd)
    as [[more Ha] Hi].
  eapply match_format_head; [exact Ha|]. cbn [bind_group]. rewrite Hi.
  apply literal_head.
  destruct (month_text m (String sep (PyDate.pad4 y +:+ "")) Hm) as [[more' Hb] Hj].
  eapply match_format_head; [exact Hb|]. cbn [bind_group group_Y group_d]. rewrite Hj.
  apply literal_head.
  destruct (year_text y "" Hy) as [Hc Hk].
  eapply match_format_head; [exact Hc|]. cbn [bind_group group_m group_d]. rewrite Hk.
  eexists. reflexivity.
Qed.

Lemma month_first_matches (sep : ascii) (y m d : Z) (g : groups) :
  0 <= y <= 9999 -> 1 <= m <= 12 -> 1 <= d <= 31 ->
  exists tl,
    match_format [Dir_m; Literal sep; Dir_d; Literal sep; Dir_Y] g
      (PyDate.pad2 m +:+ String sep (PyDate.pad2 d +:+ String sep (PyDate.pad4 y +:+ "")))
    = (mk_groups (Some y) (Some m) (Some d), EmptyString) :: tl.
Proof.
  intros Hy Hm Hd.
  destruct (month_text m (String sep (PyDate.pad2 d +:+ String sep (PyDate.pad4 y +:+ ""))) Hm)
    as [[more Ha] Hi].
  eapply match_format_head; [exact Ha|]. cbn [bind_group]. rewrite Hi.
  apply literal_head.
  destruct (day_text d (String sep (PyDate.pad4 y +:+ "")) Hd) as [[more' Hb] Hj].
  eapply match_format_head; [exact Hb|]. cbn [bind_group group_Y group_m]. rewrite Hj.
  apply literal_head.
  destruct (year_text y "" Hy) as [Hc Hk].
  eapply match_format_head; [exact Hc|]. cbn [bind_group group_m group_d]. rewrite Hk.
  eexists. reflexivity.
Qed.

Lemma valid_date_ranges (d : date) :
  Calendar.valid d = true ->
  0 <= PyDate.year d <= 9999 /\ 1 <= PyDate.month d <= 12
  /\ 1 <= PyDate.day d <= 31.
Proof.
  intros H. apply valid_ymd_bounds in H. destruct H as (Hy & Hm & Hd).
  split; [lia|]. split; [lia|]. revert Hd. unfold Calendar.days_in_month.
  each_month (PyDate.month d) Hm; destruct (PyDate.is_leap _); simpl; lia.
Qed.

Lemma format_directives :
  directives_of "%d.%m.%Y" = [Dir_d; Literal "."; Dir_m; Literal "."; Dir_Y]
  /\ directives_of "%Y-%m-%d" = [Dir_Y; Literal "-"; Dir_m; Literal "-"; Dir_d]
  /\ directives_of "%d-%m-%Y" = [Dir_d; Literal "-"; Dir_m; Literal "-"; Dir_Y]
  /\ directives_of "%m/%d/%Y" = [Dir_m; Literal "/"; Dir_d; Literal "/"; Dir_Y].
Proof. repeat split; reflexivity. Qed.

Ltac date_text :=
  unfold PyDate.str, day_first, month_first, PyDate.pad4, PyDate.pad2;
  rewrite ?append_cons, ?append_empty.

Ltac digit_facts :=
  repeat match goal with
         | |- context [PyDate.digit ?n] =>
             lazymatch goal with
             | _ : is_digit (PyDate.digit n) = true |- _ => fail
             | _ =>
                 let D := fresh "D" in
                 let S := fresh "S" in
                 pose proof (proj1 (digit_props n)) as D;
                 pose proof (digit_is_no_separator _ D) as S
             end
         end.

(** X15. [_parse_date] reads each of the four layouts it tries, written
    with two-digit day and month and four-digit year, as the calendar date
    it denotes: YYYY-MM-DD (so the text [str] gives for a date is read
    back as that date), DD.MM.YYYY, DD-MM-YYYY (day first) and MM/DD/YYYY
    (month first). *)
Theorem parse_date_reads_the_four_layouts :
  forall d : date,
    Calendar.valid d = true ->
    _parse_date (PyDate.str d) = Some d
    /\ _parse_date (day_first "." d) = Some d
    /\ _parse_date (day_first "-" d) = Some d
    /\ _parse_date (month_first "/" d) = Some d.
Proof.
  intros [y m dd] Hv.
  destruct (valid_date_ranges _ Hv) as (Hy & Hm & Hd).
  cbn [PyDate.year PyDate.month PyDate.day] in Hy, Hm, Hd.
  unfold Calendar.valid in Hv. cbn [PyDate.year PyDate.month PyDate.day] in Hv.
  destruct format_directives as (F1 & F2 & F3 & F4).
  unfold _parse_date, DATE_FORMATS. cbn [try_formats].
  split; [|split; [|split]].
  - assert (N1 : strptime (PyDate.str (PyDate.mk_date y m dd)) "%d.%m.%Y" = None).
    { apply strptime_of_nil. rewrite F1. date_text.
      cbn [PyDate.year PyDate.month PyDate.day]. digit_facts.
      apply day_then_literal_fails; tauto. }
    rewrite N1.
    rewrite (strptime_of_head _ _ (mk_groups (Some y) (Some m) (Some dd))).
    + cbn [group_Y group_m group_d default]. unfold id. rewrite Hv. reflexivity.
    + rewrite F2. apply (iso_matches y m dd _ Hy Hm Hd).
  - rewrite (strptime_of_head _ _ (mk_groups (Some y) (Some m) (Some dd))).
    + cbn [group_Y group_m group_d default]. unfold id. rewrite Hv. reflexivity.
    + rewrite F1. apply (day_first_matches "." y m dd _ Hy Hm Hd).
  - assert (N1 : strptime (day_first "-" (PyDate.mk_date y m dd)) "%d.%m.%Y" = None).
    { apply strptime_of_nil. rewrite F1. date_text.
      cbn [PyDate.year PyDate.month PyDate.day]. digit_facts.
      apply day_then_literal_fails; [tauto | reflexivity]. }
    assert (N2 : strptime (day_first "-" (PyDate.mk_date y m dd)) "%Y-%m-%d" = None).
    { apply strptime_of_nil. rewrite F2. date_text.
      apply year_fails. reflexivity. }
    rewrite N1, N2.
    rewrite (strptime_of_head _ _ (mk_groups (Some y) (Some m) (Some dd))).
    + cbn [group_Y group_m group_d default]. unfold id. rewrite Hv. reflexivity.
    + rewrite F3. apply (day_first_matches "-" y m dd _ Hy Hm Hd).
  - assert (N1 : strptime (month_first "/" (PyDate.mk_date y m dd)) "%d.%m.%Y" = None).
    { apply strptime_of_nil. rewrite F1. date_text.
      cbn [PyDate.year PyDate.month PyDate.day]. digit_facts.
      apply day_then_literal_fails; [tauto | reflexivity]. }
    assert (N2 : strptime (month_first "/" (PyDate.mk_date y m dd)) "%Y-%m-%d" = None).
    { apply strptime_of_nil. rewrite F2. date_text.
      apply year_fails. reflexivity. }
    assert (N3 : strptime (month_first "/" (PyDate.mk_date y m dd)) "%d-%m-%Y" = None).
    { apply strptime_of_nil. rewrite F3. date_text.
      cbn [PyDate.year PyDate.month PyDate.day]. digit_facts.
      apply day_then_literal_fails; [tauto | reflexivity]. }
    rewrite N1, N2, N3.
    rewrite (strptime_of_head _ _ (mk_groups (Some y) (Some m) (Some dd))).
    + cbn [group_Y group_m group_d default]. unfold id. rewrite Hv. reflexivity.
    + rewrite F4. apply (month_first_matches "/" y m dd _ Hy Hm Hd).
Qed.

(** The date of the sample invoices, in the four layouts. *)
Lemma parse_date_layouts_witness :
  _parse_date "2024-01-15" = Some (PyDate.mk_date 2024 1 15)
  /\ _parse_date "15.01.2024" = Some (PyDate.mk_date 2024 1 15)
  /\ _parse_date "15-01-2024" = Some (PyDate.mk_date 2024 1 15)
  /\ _parse_date "01/15/2024" = Some (PyDate.mk_date 2024 1 15).
Proof.
  exact (parse_date_reads_the_four_layouts (PyDate.mk_date 2024 1 15) eq_refl).
Defined.

(** [%m] followed by a literal finds no match in a text whose second and
    third characters are not that literal. *)
Lemma month_then_literal_fails (sep a b c : ascii) (r : string)
    (fmt : list directive) (g : groups) :
  Ascii.eqb sep b = false -> Ascii.eqb sep c = false ->
  match_format (Dir_m :: Literal sep :: fmt) g (String a (String b (String c r)))
  = [].
Proof.
  intros Hb Hc. unfold alternatives.
  cbn [match_format alternatives regex_of flat_map classes].
  unfold alternatives. cbn [regex_of flat_map classes].
  destruct (Ascii.eqb "1" a), (between "0" "2" b), (Ascii.eqb "0" a),
           (between "1" "9" b), (between "1" "9" a);
    cbn [flat_map fst snd app classes]; rewrite ?Hb, ?Hc; reflexivity.
Qed.

Lemma strptime_valid (s fmt : string) (d : date) :
  strptime s fmt = Some d -> Calendar.valid d = true.
Proof.
  unfold strptime.
  destruct (match_format _ _ s) as [|[g [|c rest]] tl]; try discriminate.
  destruct (Calendar.valid_ymd _ _ _) eqn:E; [|discriminate].
  intros [= <-]. exact E.
Qed.

(** X16. [_parse_date] returns calendar dates only.  A text in one of
    the four layouts that names no calendar date (31 February, or the
    year 0000) gives [None]: it is neither read under another layout nor
    moved to a nearby date. *)
Theorem parse_date_rejects_impossible_dates :
  (forall (s : string) (d : date),
      _parse_date s = Some d -> Calendar.valid d = true)
  /\ (forall y m dd : Z,
         0 <= y <= 9999 -> 1 <= m <= 12 -> 1 <= dd <= 31 ->
         Calendar.valid_ymd y m dd = false ->
         let d := PyDate.mk_date y m dd in
         _parse_date (PyDate.str d) = None
         /\ _parse_date (day_first "." d) = None
         /\ _parse_date (day_first "-" d) = None
         /\ _parse_date (month_first "/" d) = None).
Proof.
  split.
  - intros s d. unfold _parse_date, DATE_FORMATS. cbn [try_formats].
    destruct (strptime s "%d.%m.%Y") eqn:E1;
      [intros [= <-]; exact (strptime_valid _ _ _ E1)|].
    destruct (strptime s "%Y-%m-%d") eqn:E2;
      [intros [= <-]; exact (strptime_valid _ _ _ E2)|].
    destruct (strptime s "%d-%m-%Y") eqn:E3;
      [intros [= <-]; exact (strptime_valid _ _ _ E3)|].
    destruct (strptime s "%m/%d/%Y") eqn:E4;
      [intros [= <-]; exact (strptime_valid _ _ _ E4)|].
    discriminate.
  - intros y m dd Hy Hm Hd Hv d. subst d.
    destruct format_directives as (F1 & F2 & F3 & F4).
    unfold _parse_date, DATE_FORMATS. cbn [try_formats].
    split; [|split; [|split]].
    + assert (N1 : strptime (PyDate.str (PyDate.mk_date y m dd)) "%d.%m.%Y" = None).
      { apply strptime_of_nil. rewrite F1. date_text.
        cbn [PyDate.year PyDate.month PyDate.day]. digit_facts.
        apply day_then_literal_fails; tauto. }
      assert (N3 : strptime (PyDate.str (PyDate.mk_date y m dd)) "%d-%m-%Y" = None).
      { apply strptime_of_nil. rewrite F3. date_text.
        cbn [PyDate.year PyDate.month PyDate.day]. digit_facts.
        apply day_then_literal_fails; tauto. }
      assert (N4 : strptime (PyDate.str (PyDate.mk_date y m dd)) "%m/%d/%Y" = None).
      { apply strptime_of_nil. rewrite F4. date_text.
        cbn [PyDate.year PyDate.month PyDate.day]. digit_facts.
        apply month_then_literal_fails; tauto. }
      rewrite N1, N3, N4.
      rewrite (strptime_of_head _ _ (mk_groups (Some y) (Some m) (Some dd))).
      * cbn [group_Y group_m group_d default]. unfold id. rewrite Hv. reflexivity.
      * rewrite F2. apply (iso_matches y m dd _ Hy Hm Hd).
    + assert (N2 : strptime (day_first "." (PyDate.mk_date y m dd)) "%Y-%m-%d" = None).
      { apply strptime_of_nil. rewrite F2. date_text.
        apply year_fails. reflexivity. }
      assert (N3 : strptime (day_first "." (PyDate.mk_date y m dd)) "%d-%m-%Y" = None).
      { apply strptime_of_nil. rewrite F3. date_text.
        cbn [PyDate.year PyDate.month PyDate.day]. digit_facts.
        apply day_then_literal_fails; [tauto | reflexivity]. }
      assert (N4 : strptime (day_first "." (PyDate.mk_date y m dd)) "%m/%d/%Y" = None).
      { apply strptime_of_nil. rewrite F4. date_text.
        cbn [PyDate.year PyDate.month PyDate.day]. digit_facts.
        apply month_then_literal_fails; [tauto | reflexivity]. }
      rewrite N2, N3, N4.
      rewrite (strptime_of_head _ _ (mk_groups (Some y) (Some m) (Some dd))).
      * cbn [group_Y group_m group_d default]. unfold id. rewrite Hv. reflexivity.
      * rewrite F1. apply (day_first_matches "." y m dd _ Hy Hm Hd).
    + assert (N1 : strptime (day_first "-" (PyDate.mk_date y m dd)) "%d.%m.%Y" = None).
      { apply strptime_of_nil. rewrite F1. date_text.
        cbn [PyDate.year PyDate.month PyDate.day]. digit_facts.
        apply day_then_literal_fails; [tauto | reflexivity]. }
      assert (N2 : strptime (day_first "-" (PyDate.mk_date y m dd)) "%Y-%m-%d" = None).
      { apply strptime_of_nil. rewrite F2. date_text.
        apply year_fails. reflexivity. }
      assert (N4 : strptime (day_first "-" (PyDate.mk_date y m dd)) "%m/%d/%Y" = None).
      { apply strptime_of_nil. rewrite F4. date_text.
        cbn [PyDate.year PyDate.month PyDate.day]. digit_facts.
        apply month_then_literal_fails; [tauto | reflexivity]. }
      rewrite N1, N2, N4.
      rewrite (strptime_of_head _ _ (mk_groups (Some y) (Some m) (Some dd))).
      * cbn [group_Y group_m group_d default]. unfold id. rewrite Hv. reflexivity.
      * rewrite F3. apply (day_first_matches "-" y m dd _ Hy Hm Hd).
    + assert (N1 : strptime (month_first "/" (PyDate.mk_date y m dd)) "%d.%m.%Y" = None).
      { apply strptime_of_nil. rewrite F1. date_text.
        cbn [PyDate.year PyDate.month PyDate.day]. digit_facts.
        apply day_then_literal_fails; [tauto | reflexivity]. }
      assert (N2 : strptime (month_first "/" (PyDate.mk_date y m dd)) "%Y-%m-%d" = None).
      { apply strptime_of_nil. rewrite F2. date_text.
        apply year_fails. reflexivity. }
      assert (N3 : strptime (month_first "/" (PyDate.mk_date y m dd)) "%d-%m-%Y" = None).
      { apply strptime_of_nil. rewrite F3. date_text.
        cbn [PyDate.year PyDate.month PyDate.day]. digit_facts.
        apply day_then_literal_fails; [tauto | reflexivity]. }
      rewrite N1, N2, N3.
      rewrite (strptime_of_head _ _ (mk_groups (Some y) (Some m) (Some dd))).
      * cbn [group_Y group_m group_d default]. unfold id. rewrite Hv. reflexivity.
      * rewrite F4. apply (month_first_matches "/" y m dd _ Hy Hm Hd).
Qed.

(** ** Extraction *)

Lemma find_key_absent (key : string) (pats : list (string * string)) :
  ~ In key (map fst pats) ->
  List.find (fun e : string * string => String.eqb (fst e) key) pats = None.
Proof.
  induction pats as [|[k p] pats IH]; simpl; [reflexivity|].
  intros H. destruct (String.eqb_spec k key) as [->|Hne].
  - exfalso. apply H. left. reflexivity.
  - apply IH. intros Hin. apply H. right. exact Hin.
Qed.

Lemma field_patterns_nodup : List.NoDup (map fst FIELD_PATTERNS).
Proof.
  unfold FIELD_PATTERNS. cbn [map fst].
  repeat (constructor; [cbn [In]; intuition discriminate|]). constructor.
Qed.

Section Extraction.

Variable float_of_str : string -> option float.
Variable search_group2 : string -> string -> option string.

Lemma extract_fields_lookup (text key : string) (pats : list (string * string)) :
  List.NoDup (map fst pats) ->
  forall data : gmap string field_value,
    fold_left (extract_field float_of_str search_group2 text) pats data !! key
    = match List.find (fun e : string * string => String.eqb (fst e) key) pats with
      | Some e =>
          match search_group2 (snd e) text with
          | Some g => Some (_clean_value float_of_str key (PyStr.strip g))
          | None => data !! key
          end
      | None => data !! key
      end.
Proof.
  induction pats as [|[k p] pats IH]; intros Hnd data; [reflexivity|].
  cbn [map fst] in Hnd. apply List.NoDup_cons_iff in Hnd. destruct Hnd as [Hk Hnd].
  cbn [fold_left List.find fst snd]. rewrite (IH Hnd).
  destruct (String.eqb_spec k key) as [->|Hne]; cbn [snd].
  - rewrite (find_key_absent key pats Hk). unfold extract_field.
    destruct (search_group2 p text); [apply lookup_insert_eq | reflexivity].
  - assert (Hd : extract_field float_of_str search_group2 text data (k, p) !! key
                 = data !! key).
    { unfold extract_field. destruct (search_group2 p text); [|reflexivity].
      apply lookup_insert_ne. exact Hne. }
    rewrite Hd. reflexivity.
Qed.

Lemma basic_fields_lookup (text key : string) :
  In key (map fst FIELD_PATTERNS) ->
  _extract_basic_fields float_of_str search_group2 text !! key
  = (fun g => _clean_value float_of_str key (PyStr.strip g))
      <$> search_group2 (pattern_of key) text.
Proof.
  intros Hin. unfold _extract_basic_fields.
  rewrite (extract_fields_lookup text key FIELD_PATTERNS field_patterns_nodup).
  unfold pattern_of.
  destruct (List.find _ FIELD_PATTERNS) as [e|] eqn:E.
  - destruct (search_group2 (snd e) text); reflexivity.
  - exfalso. apply in_map_iff in Hin. destruct Hin as ([k p] & Hk & Hin).
    apply (List.find_none _ _ E) in Hin. cbn [fst] in *. subst k.
    rewrite String.eqb_refl in Hin. discriminate Hin.
Qed.

Lemma extract_from_cases (text : string) (items : list LineItem)
    (path : string) (now : datetime) :
  extract_from float_of_str search_group2 text items path now
  = match date_read search_group2 text "invoice_date" with
    | Some d =>
        Invoice_new
          (mk_Invoice (text_read search_group2 text "invoice_number" "UNKNOWN") None
             (PyStr.strip (text_read search_group2 text "seller_name" "")) None None
             (PyStr.strip (text_read search_group2 text "buyer_name" "")) None None
             d (date_read search_group2 text "due_date") EUR
             (total_read float_of_str search_group2 text "net_total")
             (total_read float_of_str search_group2 text "tax_amount")
             (total_read float_of_str search_group2 text "gross_total")
             items None None (Some path) (Some now))
    | None =>
        inl (("invoice_date", "Input should be a valid date")
             :: run_field_validator "net_total"
                  (total_read float_of_str search_group2 text "net_total")
             ++ run_field_validator "tax_amount"
                  (total_read float_of_str search_group2 text "tax_amount")
             ++ run_field_validator "gross_total"
                  (total_read float_of_str search_group2 text "gross_total"))%list
    end.
Proof.
  unfold extract_from.
  rewrite !basic_fields_lookup
    by (unfold FIELD_PATTERNS; cbn [map fst In]; tauto).
  replace (as_text "invoice_number" _)
    with (@inr ConstructionError _ (text_read search_group2 text "invoice_number" "UNKNOWN"))
    by (unfold text_read; destruct (search_group2 _ text); reflexivity).
  replace (as_text "seller_name" _)
    with (@inr ConstructionError _ (text_read search_group2 text "seller_name" ""))
    by (unfold text_read; destruct (search_group2 _ text); reflexivity).
  replace (as_text "buyer_name" _)
    with (@inr ConstructionError _ (text_read search_group2 text "buyer_name" ""))
    by (unfold text_read; destruct (search_group2 _ text); reflexivity).
  replace (as_number "net_total" _)
    with (@inr ConstructionError _ (total_read float_of_str search_group2 text "net_total"))
    by (unfold total_read; destruct (search_group2 _ text); reflexivity).
  replace (as_number "tax_amount" _)
    with (@inr ConstructionError _ (total_read float_of_str search_group2 text "tax_amount"))
    by (unfold total_read; destruct (search_group2 _ text); reflexivity).
  replace (as_number "gross_total" _)
    with (@inr ConstructionError _ (total_read float_of_str search_group2 text "gross_total"))
    by (unfold total_read; destruct (search_group2 _ text); reflexivity).
  replace (as_optional_date "due_date" _)
    with (@inr ConstructionError _ (date_read search_group2 text "due_date"))
    by (unfold date_read; destruct (search_group2 _ text) as [g|];
        [cbn [fmap option_fmap option_map default _clean_value existsb
              String.eqb Ascii.eqb Bool.eqb orb as_optional_date as_date];
         destruct (_parse_date (PyStr.strip g))|]; reflexivity).
  unfold date_read.
  destruct (search_group2 (pattern_of "invoice_date") text) as [g|];
    [cbn [fmap option_fmap option_map default _clean_value existsb
              String.eqb Ascii.eqb Bool.eqb orb as_optional_date as_date];
     destruct (_parse_date (PyStr.strip g))|]; reflexivity.
Qed.

End Extraction.

(** X17. [extract] stands or falls with the invoice date.  When no
    invoice date is found in the text, or the text found is in none of the
    four layouts, construction fails and the first error names
    [invoice_date].  When a date is read and no total read is negative,
    the record is built: with that date, currency EUR, the given line
    items and source file, the invoice number found or else "UNKNOWN",
    and each total as read (0.0 when not found).  No other argument of
    the constructor can fail. *)
Theorem extract_needs_an_invoice_date :
  forall (float_of_str : string -> option float)
         (search_group2 : string -> string -> option string)
         (text : string) (items : list LineItem) (path : string) (now : datetime),
    let out := extract_from float_of_str search_group2 text items path now in
    let total := total_read float_of_str search_group2 text in
    (date_read search_group2 text "invoice_date" = None ->
     exists errs : ConstructionError,
       out = inl (("invoice_date", "Input should be a valid date") :: errs))
    /\ (forall d : date,
           date_read search_group2 text "invoice_date" = Some d ->
           PyFloat.lt (total "net_total") (PyFloat.of_Z 0) = false ->
           PyFloat.lt (total "tax_amount") (PyFloat.of_Z 0) = false ->
           PyFloat.lt (total "gross_total") (PyFloat.of_Z 0) = false ->
           exists inv : Invoice,
             out = inr inv
             /\ invoice_date inv = d /\ currency inv = EUR
             /\ line_items inv = items /\ source_file inv = Some path
             /\ invoice_number inv
                = text_read search_group2 text "invoice_number" "UNKNOWN"
             /\ net_total inv = total "net_total"
             /\ tax_amount inv = total "tax_amount"
             /\ gross_total inv = total "gross_total")
    /\ (forall inv : Invoice,
           out = inr inv ->
           date_read search_group2 text "invoice_date" = Some (invoice_date inv)).
Proof.
  intros f srch text items path now out total. subst out total.
  rewrite extract_from_cases. split; [|split].
  - intros ->. eexists. reflexivity.
  - intros d -> Hn Ht Hg. eexists. split.
    + apply Invoice_new_ok. cbn [net_total tax_amount gross_total]. tauto.
    + repeat split.
  - intros inv. destruct (date_read srch text "invoice_date") as [d|];
      [|discriminate].
    intros H. apply Invoice_new_inr in H. destruct H as [-> _]. reflexivity.
Qed.

(** X18. Totals that could not be read pass the arithmetic checks.  For
    a record that [extract] built from a text in which none of the three
    totals was found and whose PDF had no table rows, the engine reports
    neither [gross_calculation_mismatch] nor [line_items_sum_mismatch]
    nor [negative_amount]: the record differs from a sound invoice of
    total zero only by the [no_line_items] warning. *)
Theorem unread_totals_pass_the_checks :
  forall (float_of_str : string -> option float)
         (search_group2 : string -> string -> option string)
         (text path : string) (now : datetime) (inv : Invoice) (s : State),
    extract_from float_of_str search_group2 text [] path now = inr inv ->
    search_group2 (pattern_of "net_total") text = None ->
    search_group2 (pattern_of "tax_amount") text = None ->
    search_group2 (pattern_of "gross_total") text = None ->
    let r := eval (validate_invoice inv) s in
    has_rule "gross_calculation_mismatch" (errors r) = false
    /\ has_rule "line_items_sum_mismatch" (errors r) = false
    /\ has_rule "negative_amount" (errors r) = false
    /\ has_rule "no_line_items" (warnings r) = true.
Proof.
  intros f srch text path now inv s Hex Hn Ht Hg r. subst r.
  rewrite extract_from_cases in Hex.
  destruct (date_read srch text "invoice_date") as [d|]; [|discriminate Hex].
  apply Invoice_new_inr in Hex. destruct Hex as [-> _].
  unfold total_read. rewrite Hn, Ht, Hg.
  repeat split.
  - rewrite has_rule_errors, count_gross_calculation_mismatch. reflexivity.
  - rewrite has_rule_errors, count_line_items_sum_mismatch. reflexivity.
  - rewrite has_rule_errors, count_negative_amount. reflexivity.
  - unfold eval. rewrite validate_invoice_run. cbn [fst warnings].
    unfold warnings_on. cbn [line_items truthy negb app]. reflexivity.
Qed.

(** A scan in which only the date and the seller are found. *)
Lemma unread_totals_witness :
  extract_from known_numbers found_date_and_seller "" [] "scan.pdf"
    (PyDate.mk_datetime (PyDate.mk_date 2024 6 1) 12 0 0 0)
  = inr extracted_sample
  /\ has_rule "gross_calculation_mismatch"
       (errors (eval (validate_invoice extracted_sample) Samples.noon)) = false
  /\ has_rule "line_items_sum_mismatch"
       (errors (eval (validate_invoice extracted_sample) Samples.noon)) = false
  /\ has_rule "negative_amount"
       (errors (eval (validate_invoice extracted_sample) Samples.noon)) = false
  /\ has_rule "no_line_items"
       (warnings (eval (validate_invoice extracted_sample) Samples.noon)) = true.
Proof.
  split; [vm_compute; reflexivity|].
  refine (unread_totals_pass_the_checks known_numbers found_date_and_seller
            "" "scan.pdf" (PyDate.mk_datetime (PyDate.mk_date 2024 6 1) 12 0 0 0)
            extracted_sample Samples.noon _ eq_refl eq_refl eq_refl).
  vm_compute. reflexivity.
Defined.

(** ** The date range *)

Lemma days_before_year_growth (a b : Z) :
  a <= b ->
  365 * (b - a) <= PyDate.days_before_year b - PyDate.days_before_year a
  <= 366 * (b - a).
Proof.
  intros H. unfold PyDate.days_before_year. cbv zeta.
  Z.div_mod_to_equations. lia.
Qed.

Lemma ordinal_bounds (d : date) :
  Calendar.valid d = true ->
  PyDate.days_before_year (PyDate.year d) < PyDate.toordinal d
  <= PyDate.days_before_year (PyDate.year d + 1).
Proof.
  intros H. unfold Calendar.valid in H.
  pose proof (day_of_year_bounds _ _ _ H) as B.
  pose proof (days_before_year_succ (PyDate.year d)) as S.
  unfold PyDate.toordinal. lia.
Qed.

Lemma count_date_out_of_range (d : date) (seen : gset Key) (invoice : Invoice) :
  negb (Nat.eqb (count_rule "date_out_of_range" (errors_on d seen invoice)) 0)
  = (3650 <? Z.abs (PyDate.days_between d (invoice_date invoice))).
Proof.
  rewrite count_errors_on. foreign_rules. unfold dates_errors.
  destruct (3650 <? _); reflexivity.
Qed.

Lemma ordinal_distance (a b : date) :
  Calendar.valid a = true -> Calendar.valid b = true ->
  PyDate.year a <= PyDate.year b ->
  -366 < PyDate.toordinal b - PyDate.toordinal a
         < 366 * (PyDate.year b - PyDate.year a + 1)
  /\ (PyDate.year a < PyDate.year b ->
      365 * (PyDate.year b - PyDate.year a - 1)
      < PyDate.toordinal b - PyDate.toordinal a).
Proof.
  intros Ha Hb Hy.
  pose proof (ordinal_bounds a Ha) as Ba.
  pose proof (ordinal_bounds b Hb) as Bb.
  pose proof (days_before_year_growth (PyDate.year a) (PyDate.year a + 1) ltac:(lia)).
  pose proof (days_before_year_growth (PyDate.year a) (PyDate.year b + 1) ltac:(lia)).
  destruct (Z.eq_dec (PyDate.year a) (PyDate.year b)) as [E|E].
  - rewrite <- E in *. split; [lia|]. lia.
  - pose proof (days_before_year_growth (PyDate.year a + 1) (PyDate.year b) ltac:(lia)).
    split; [lia|]. lia.
Qed.

(** X19. The range check counts days, not years: with [today] the date the
    clock shows when the check runs, [date_out_of_range] is reported
    exactly when the invoice date lies more than 3650 days before or
    after it.  In calendar terms, an invoice dated in a year at most
    eight years from the current one is never out of range, and one dated
    in a year eleven or more years away always is. *)
Theorem date_range_in_calendar_years :
  forall (invoice : Invoice) (s : State),
    Calendar.valid (today (clock s (reads s))) = true ->
    Calendar.valid (invoice_date invoice) = true ->
    let errs := errors (eval (validate_invoice invoice) s) in
    let t := today (clock s (reads s)) in
    let d := invoice_date invoice in
    has_rule "date_out_of_range" errs
      = (3650 <? Z.abs (PyDate.toordinal t - PyDate.toordinal d))
    /\ (Z.abs (PyDate.year t - PyDate.year d) <= 8 ->
        has_rule "date_out_of_range" errs = false)
    /\ (11 <= Z.abs (PyDate.year t - PyDate.year d) ->
        has_rule "date_out_of_range" errs = true).
Proof.
  intros invoice s Ht Hd errs t d. subst errs.
  rewrite has_rule_errors, count_date_out_of_range.
  fold t d. fold t in Ht. fold d in Hd. unfold PyDate.days_between.
  clearbody t d.
  split; [reflexivity|]. split.
  - intros Hy. apply Z.ltb_ge.
    destruct (Z.le_ge_cases (PyDate.year d) (PyDate.year t)) as [H|H].
    + destruct (ordinal_distance d t Hd Ht H) as [B _]. lia.
    + destruct (ordinal_distance t d Ht Hd ltac:(lia)) as [B _]. lia.
  - intros Hy. apply Z.ltb_lt.
    destruct (Z.le_ge_cases (PyDate.year d) (PyDate.year t)) as [H|H].
    + destruct (ordinal_distance d t Hd Ht H) as [_ B].
      specialize (B ltac:(lia)). lia.
    + destruct (ordinal_distance t d Ht Hd ltac:(lia)) as [_ B].
      specialize (B ltac:(lia)). lia.
Qed.

(** The old sample invoice, dated a year before the sample clock. *)
Lemma date_range_witness :
  has_rule "date_out_of_range"
    (errors (eval (validate_invoice Samples.old) Samples.noon))
  = (3650 <? Z.abs (PyDate.toordinal Samples.june_1st
                    - PyDate.toordinal (PyDate.mk_date 2023 6 1))).
Proof.
  exact (proj1 (date_range_in_calendar_years Samples.old Samples.noon
                  eq_refl eq_refl)).
Defined.

(** ** Line items from tables *)

Import LineItemTables.

Section TableItems.

Variable float_of_str : string -> option float.










End TableItems.


(** X21. A decimal comma means different things in a table and in a
    total.  In a table cell the comma is turned into the decimal point,
    so a row whose three numeric cells read "a,c" (no other separator)
    becomes a line item with the number [float] makes of "a.c"; the same
    text found as an invoice total is parsed by [_parse_number] as the
    number of "ac". *)
Theorem decimal_comma_in_tables_and_totals :
  forall (float_of_str : string -> option float) (header : row)
         (desc a c : string) (x : float),
    (4 <= length header)%nat ->
    plain a = true -> plain c = true ->
    float_of_str (a +:+ "." +:+ c) = Some x ->
    _extract_line_items float_of_str
      [ [ [ header;
            [ Some desc; Some (a +:+ "," +:+ c); Some (a +:+ "," +:+ c);
              Some (a +:+ "," +:+ c) ] ] ] ]
    = [ mk_LineItem (PyStr.strip desc) x x x None ]
    /\ _parse_number float_of_str (a +:+ "," +:+ c)
       = default (PyFloat.of_Z 0) (float_of_str (a +:+ c)).
Proof.
  intros f header desc a c x Hh Ha Hc Hx.
  destruct (plain_parts a Ha) as (Ha1 & Ha2 & Ha3).
  destruct (plain_parts c Hc) as (Hc1 & Hc2 & Hc3).
  split.
  - unfold _extract_line_items.
    cbn [pages_items tables_items table_items rows_items row_item cell_number].
    destruct (Nat.ltb_spec (length header) 4); [lia|].
    rewrite !replace_app. cbn [replace Ascii.eqb Bool.eqb].
    rewrite (replace_absent "," "." a Ha2), (replace_absent "," "." c Hc2).
    rewrite append_cons, append_empty, Hx. reflexivity.
  - unfold _parse_number.
    rewrite number_text_no_dot
      by (rewrite !contains_app; simpl; rewrite ?Ha1, ?Ha3, ?Hc1, ?Hc3; reflexivity).
    rewrite !replace_app. cbn [replace Ascii.eqb Bool.eqb].
    rewrite (replace_absent "," "" a Ha2), (replace_absent "," "" c Hc2).
    rewrite append_empty. destruct (f _); reflexivity.
Qed.

(** A row of three cells "1234,56", with the parser that knows "1234.56". *)
Lemma decimal_comma_witness :
  _extract_line_items known_numbers
    [ [ [ [ Some "Description"; Some "Qty"; Some "Price"; Some "Total" ];
          [ Some " Consulting "; Some "1234,56"; Some "1234,56"; Some "1234,56" ] ] ] ]
  = [ mk_LineItem "Consulting" (PyFloat.decimal 123456 100)
        (PyFloat.decimal 123456 100) (PyFloat.decimal 123456 100) None ]
  /\ _parse_number known_numbers "1234,56"
     = default (PyFloat.of_Z 0) (known_numbers "123456").
Proof.
  exact (decimal_comma_in_tables_and_totals known_numbers
           [ Some "Description"; Some "Qty"; Some "Price"; Some "Total" ]
           " Consulting " "1234" "56" (PyFloat.decimal 123456 100)
           (le_n 4) eq_refl eq_refl eq_refl).
Defined.
